(** * PositionSticky: a shallow embedding of [src/jquery.positionsticky.js]

    The source file holds two variants of the same object.  The first
    (lines 1-171) is the stand-alone script that talks to the DOM itself;
    the second (lines 172-505) is the CommonJS module that delegates
    measurements to the collaborators [Container], [Sticky] and
    [Placeholder].  Both are embedded below, each in a module of its own:
    [Standalone] and [PositionSticky].

    Modelling choices.
    - A JS number holding a pixel quantity is an integer of [Z]; [null]
      in a numeric field is [None], and is read back the way JS coerces
      it ([ToNumber]: 0 in arithmetic and comparisons, the text "null" in
      a string concatenation).
    - An element's inline style ([CSSStyleDeclaration]) is a finite map
      from property names to values.  Next to it the element carries the
      trace of every assignment made to its style, so that "no style
      mutation" is a statement about that trace.
    - Layout read from the browser ([getBoundingClientRect], [offsetTop],
      computed style, page offsets) is an explicit input: a [Layout]
      snapshot handed to every function that measures.
    - Dereferencing [null] raises a [TypeError] in JS; such functions
      return [option] and [None] stands for the exception. *)

From Stdlib Require Import ZArith Lia.
From stdpp Require Import base option strings pretty list gmap.

Open Scope Z_scope.

#[local] Set Warnings "-register-all".

(** ** JavaScript coercions used by the source *)

(** [null] in a comparison or a subtraction is the number 0. *)
Definition ToNumber (v : option Z) : Z := default 0 v.

(** [n + 'px'] for a number [n]. *)
Definition px (n : Z) : string := pretty n +:+ "px".

(** [v + 'px'] for a field that may still hold [null]. *)
Definition px_nullable (v : option Z) : string :=
  match v with
  | Some n => px n
  | None => "nullpx"
  end.

Inductive JsValue :=
  | JsUndefined
  | JsNumber (n : Z)
  | JsString (s : string).

(** ** DOM elements and their inline style *)

Inductive StyleWrite :=
  | SetStyle (property value : string)
  | ClearStyle (property : string).

Inductive HTMLElement := {
  style : gmap string string;
  styleWrites : list StyleWrite;
  parentNode : option HTMLElement
}.

(** [el.style.setProperty(k, v)], also written [el.style.k = v]. *)
Definition setProperty (k v : string) (el : HTMLElement) : HTMLElement :=
  {| style := <[k := v]> (style el);
     styleWrites := styleWrites el ++ [SetStyle k v];
     parentNode := parentNode el |}.

(** [el.style.removeProperty(k)], also written [el.style.k = null]. *)
Definition removeProperty (k : string) (el : HTMLElement) : HTMLElement :=
  {| style := delete k (style el);
     styleWrites := styleWrites el ++ [ClearStyle k];
     parentNode := parentNode el |}.

(** [el.style.getPropertyValue(k)]: the empty string when unset. *)
Definition getPropertyValue (k : string) (el : HTMLElement) : string :=
  default "" (style el !! k).

(** [document.createElement('DIV')] *)
Definition createElement : HTMLElement :=
  {| style := ∅; styleWrites := []; parentNode := None |}.

(** ** Layout snapshots *)

Record ClientRect := {
  rect_top : Z;
  rect_left : Z;
  rect_bottom : Z;
  rect_width : Z;
  rect_height : Z
}.

(** An element seen through [offsetTop] and [offsetParent]. *)
Inductive OffsetBox :=
  | MkOffsetBox (el_offsetTop : Z) (el_offsetParent : option OffsetBox).

(** The four computed-style lengths of the container, already through
    [parseInt(_, 10)]. *)
Record ComputedBox := {
  cs_borderTopWidth : Z;
  cs_borderBottomWidth : Z;
  cs_paddingTop : Z;
  cs_paddingBottom : Z
}.

Record Layout := {
  pageXOffset : Z;
  pageYOffset : Z;              (* window.pageYOffset, alias window.scrollY *)
  stickyRect : ClientRect;      (* element.getBoundingClientRect() *)
  stickyOffsetLeft : Z;         (* element.offsetLeft *)
  stickyMarginLeft : Z;         (* parseInt(getComputedStyle(element).marginLeft, 10) *)
  stickyOffsets : OffsetBox;    (* element.offsetTop and its offsetParent chain *)
  placeholderRect : ClientRect; (* placeholder.getBoundingClientRect() *)
  containerRect : ClientRect;   (* container.getBoundingClientRect() *)
  containerBox : ComputedBox    (* getComputedStyle(container) *)
}.

(** ** Constants and options shared by the two variants *)

Definition POS_SCHEME_STATIC : Z := 100.
Definition POS_SCHEME_FIXED : Z := 200.
Definition POS_SCHEME_ABSOLUTE : Z := 300.

Record Options := { options_offsetTop : JsValue }.

(** [{}] *)
Definition emptyOptions : Options := {| options_offsetTop := JsUndefined |}.

(** [typeof options.offsetTop === 'number' && options.offsetTop >= 0] *)
Definition offsetTopOption (o : Options) : option Z :=
  match options_offsetTop o with
  | JsNumber n => if bool_decide (n >= 0) then Some n else None
  | _ => None
  end.

(** A callback handed to [requestAnimationFrame]; the only one the source
    ever schedules is its own bound [update]. *)
Inductive FrameCallback := UpdateCallback.

(** A listener registered on the window's scroll event. *)
Inductive ScrollListener := OnScrollListener.

(** ** The collaborators of the modular variant

    [require('../src/Container')], [require('../src/Sticky')] and
    [require('../src/Placeholder')] name files that are not among the
    sources; what the main object reads from them is fixed by its own
    code (the field names below), what they compute is taken from the
    specification. *)

Module Container.

Record t := {
  element : HTMLElement;
  borderTopWidth : Z;
  borderBottomWidth : Z;
  paddingTop : Z;
  paddingBottom : Z
}.

(** Modelled from the spec: [Container.create] is missing from the
    sources.  Section 4.1 gives the read contract: border widths and
    paddings are the "resolved numeric pixel values from computed
    style", measured once when the collaborator is created. *)
Definition create (dom : Layout) (el : HTMLElement) : t :=
  {| element := el;
     borderTopWidth := cs_borderTopWidth (containerBox dom);
     borderBottomWidth := cs_borderBottomWidth (containerBox dom);
     paddingTop := cs_paddingTop (containerBox dom);
     paddingBottom := cs_paddingBottom (containerBox dom) |}.

End Container.

Module Sticky.

Record t := {
  element : HTMLElement;
  boundingBoxWidth : Z;
  boundingBoxHeight : Z
}.

Definition with_element (f : HTMLElement → HTMLElement) (s : t) : t :=
  {| element := f (element s);
     boundingBoxWidth := boundingBoxWidth s;
     boundingBoxHeight := boundingBoxHeight s |}.

(** Modelled from the spec: [Sticky.create] is missing from the
    sources.  Section 3 lists the "cached static bounding box (width,
    height)" among the attributes of the sticky element; it is measured
    when the collaborator is created. *)
Definition create (dom : Layout) (el : HTMLElement) : t :=
  {| element := el;
     boundingBoxWidth := rect_width (stickyRect dom);
     boundingBoxHeight := rect_height (stickyRect dom) |}.

(** Modelled from the spec: [Sticky.refresh] is missing from the
    sources.  Section 4.3 calls [refresh] a re-measurement; the cached
    box is measured again and the element is left as it is. *)
Definition refresh (dom : Layout) (s : t) : t :=
  {| element := element s;
     boundingBoxWidth := rect_width (stickyRect dom);
     boundingBoxHeight := rect_height (stickyRect dom) |}.

End Sticky.

Module Placeholder.

Record t := { element : HTMLElement }.

Definition with_element (f : HTMLElement → HTMLElement) (p : t) : t :=
  {| element := f (element p) |}.

(** Resize the node to the sticky element's cached static box. *)
Definition resize (sticky : Sticky.t) (el : HTMLElement) : HTMLElement :=
  setProperty "height" (px (Sticky.boundingBoxHeight sticky))
    (setProperty "width" (px (Sticky.boundingBoxWidth sticky)) el).

(** Modelled from the spec: [Placeholder.create] is missing from the
    sources.  Section 4.2: it "allocates a flow node sized to the
    sticky element's static width/height, hidden by default". *)
Definition create (sticky : Sticky.t) : t :=
  {| element := resize sticky (setProperty "display" "none" createElement) |}.

(** Modelled from the spec: [Placeholder.refresh] is missing from the
    sources.  Section 4.2: it "re-measures and resizes to match current
    static dimensions"; visibility is not its business. *)
Definition refresh (sticky : Sticky.t) (p : t) : t :=
  with_element (resize sticky) p.

(** The node takes part in the flow unless its display is [none]. *)
Definition visible (p : t) : bool :=
  negb (bool_decide (style (element p) !! "display" = Some "none")).

End Placeholder.

(** ** The modular variant (lines 172-505) *)

Module PositionSticky.

Record t := {
  _sticky : Sticky.t;
  _container : Container.t;
  _placeholder : option Placeholder.t;
  _posScheme : Z;
  _isTicking : bool;
  _threshold : option Z;
  _options : Options;
  _leftPositionWhenAbsolute : option Z;
  _leftPositionWhenFixed : option Z;
  _latestKnownScrollY : Z;
  offsetTop : Z;
  offsetBottom : Z
}.

(** Field assignments [this.f = v]. *)

Definition set_sticky (v : Sticky.t) (this : t) : t :=
  {| _sticky := v; _container := _container this;
     _placeholder := _placeholder this; _posScheme := _posScheme this;
     _isTicking := _isTicking this; _threshold := _threshold this;
     _options := _options this;
     _leftPositionWhenAbsolute := _leftPositionWhenAbsolute this;
     _leftPositionWhenFixed := _leftPositionWhenFixed this;
     _latestKnownScrollY := _latestKnownScrollY this;
     offsetTop := offsetTop this; offsetBottom := offsetBottom this |}.

Definition set_placeholder (v : option Placeholder.t) (this : t) : t :=
  {| _sticky := _sticky this; _container := _container this;
     _placeholder := v; _posScheme := _posScheme this;
     _isTicking := _isTicking this; _threshold := _threshold this;
     _options := _options this;
     _leftPositionWhenAbsolute := _leftPositionWhenAbsolute this;
     _leftPositionWhenFixed := _leftPositionWhenFixed this;
     _latestKnownScrollY := _latestKnownScrollY this;
     offsetTop := offsetTop this; offsetBottom := offsetBottom this |}.

Definition set_posScheme (v : Z) (this : t) : t :=
  {| _sticky := _sticky this; _container := _container this;
     _placeholder := _placeholder this; _posScheme := v;
     _isTicking := _isTicking this; _threshold := _threshold this;
     _options := _options this;
     _leftPositionWhenAbsolute := _leftPositionWhenAbsolute this;
     _leftPositionWhenFixed := _leftPositionWhenFixed this;
     _latestKnownScrollY := _latestKnownScrollY this;
     offsetTop := offsetTop this; offsetBottom := offsetBottom this |}.

Definition set_isTicking (v : bool) (this : t) : t :=
  {| _sticky := _sticky this; _container := _container this;
     _placeholder := _placeholder this; _posScheme := _posScheme this;
     _isTicking := v; _threshold := _threshold this;
     _options := _options this;
     _leftPositionWhenAbsolute := _leftPositionWhenAbsolute this;
     _leftPositionWhenFixed := _leftPositionWhenFixed this;
     _latestKnownScrollY := _latestKnownScrollY this;
     offsetTop := offsetTop this; offsetBottom := offsetBottom this |}.

Definition set_threshold (v : option Z) (this : t) : t :=
  {| _sticky := _sticky this; _container := _container this;
     _placeholder := _placeholder this; _posScheme := _posScheme this;
     _isTicking := _isTicking this; _threshold := v;
     _options := _options this;
     _leftPositionWhenAbsolute := _leftPositionWhenAbsolute this;
     _leftPositionWhenFixed := _leftPositionWhenFixed this;
     _latestKnownScrollY := _latestKnownScrollY this;
     offsetTop := offsetTop this; offsetBottom := offsetBottom this |}.

Definition set_leftPositionWhenAbsolute (v : option Z) (this : t) : t :=
  {| _sticky := _sticky this; _container := _container this;
     _placeholder := _placeholder this; _posScheme := _posScheme this;
     _isTicking := _isTicking this; _threshold := _threshold this;
     _options := _options this;
     _leftPositionWhenAbsolute := v;
     _leftPositionWhenFixed := _leftPositionWhenFixed this;
     _latestKnownScrollY := _latestKnownScrollY this;
     offsetTop := offsetTop this; offsetBottom := offsetBottom this |}.

Definition set_leftPositionWhenFixed (v : option Z) (this : t) : t :=
  {| _sticky := _sticky this; _container := _container this;
     _placeholder := _placeholder this; _posScheme := _posScheme this;
     _isTicking := _isTicking this; _threshold := _threshold this;
     _options := _options this;
     _leftPositionWhenAbsolute := _leftPositionWhenAbsolute this;
     _leftPositionWhenFixed := v;
     _latestKnownScrollY := _latestKnownScrollY this;
     offsetTop := offsetTop this; offsetBottom := offsetBottom this |}.

Definition set_latestKnownScrollY (v : Z) (this : t) : t :=
  {| _sticky := _sticky this; _container := _container this;
     _placeholder := _placeholder this; _posScheme := _posScheme this;
     _isTicking := _isTicking this; _threshold := _threshold this;
     _options := _options this;
     _leftPositionWhenAbsolute := _leftPositionWhenAbsolute this;
     _leftPositionWhenFixed := _leftPositionWhenFixed this;
     _latestKnownScrollY := v;
     offsetTop := offsetTop this; offsetBottom := offsetBottom this |}.

Definition set_offsetTop (v : Z) (this : t) : t :=
  {| _sticky := _sticky this; _container := _container this;
     _placeholder := _placeholder this; _posScheme := _posScheme this;
     _isTicking := _isTicking this; _threshold := _threshold this;
     _options := _options this;
     _leftPositionWhenAbsolute := _leftPositionWhenAbsolute this;
     _leftPositionWhenFixed := _leftPositionWhenFixed this;
     _latestKnownScrollY := _latestKnownScrollY this;
     offsetTop := v; offsetBottom := offsetBottom this |}.

Definition set_offsetBottom (v : Z) (this : t) : t :=
  {| _sticky := _sticky this; _container := _container this;
     _placeholder := _placeholder this; _posScheme := _posScheme this;
     _isTicking := _isTicking this; _threshold := _threshold this;
     _options := _options this;
     _leftPositionWhenAbsolute := _leftPositionWhenAbsolute this;
     _leftPositionWhenFixed := _leftPositionWhenFixed this;
     _latestKnownScrollY := _latestKnownScrollY this;
     offsetTop := offsetTop this; offsetBottom := v |}.

(** [_setOffsetTop] (lines 255-261) *)
Definition _setOffsetTop (this : t) : t :=
  match offsetTopOption (_options this) with
  | Some n => set_offsetTop n this
  | None =>
      set_offsetTop (Container.borderTopWidth (_container this)
                     + Container.paddingTop (_container this)) this
  end.

(** [_setOffsetBottom] (lines 271-273) *)
Definition _setOffsetBottom (this : t) : t :=
  set_offsetBottom (Container.borderBottomWidth (_container this)
                    + Container.paddingBottom (_container this)) this.

(** [_isStatic], [_isFixed], [_isAbsolute] (lines 353-355, 372-374,
    394-396) *)
Definition _isStatic (this : t) : bool :=
  bool_decide (_posScheme this = POS_SCHEME_STATIC).

Definition _isFixed (this : t) : bool :=
  bool_decide (_posScheme this = POS_SCHEME_FIXED).

Definition _isAbsolute (this : t) : bool :=
  bool_decide (_posScheme this = POS_SCHEME_ABSOLUTE).

(** [_getStickyDistanceFromDocumentTop] (lines 485-489).  The node that
    is measured is the sticky element while the scheme is static and
    the placeholder otherwise; reading [.element] of a [null]
    placeholder throws. *)
Definition _getStickyDistanceFromDocumentTop (dom : Layout) (this : t)
  : option Z :=
  rect ← (if _isStatic this then Some (stickyRect dom)
          else _ ← _placeholder this; Some (placeholderRect dom));
  let totalOffsetTop := _latestKnownScrollY this + rect_top rect in
  Some totalOffsetTop.

(** [_calcThreshold] (lines 281-283) *)
Definition _calcThreshold (dom : Layout) (this : t) : option t :=
  distance ← _getStickyDistanceFromDocumentTop dom this;
  Some (set_threshold (Some (distance - offsetTop this)) this).

(** [_setLeftPositionWhenAbsolute] (lines 292-295) *)
Definition _setLeftPositionWhenAbsolute (dom : Layout) (this : t) : t :=
  let marginLeft := stickyMarginLeft dom in
  set_leftPositionWhenAbsolute (Some (stickyOffsetLeft dom - marginLeft)) this.

(** [_setLeftPositionWhenFixed] (lines 305-308) *)
Definition _setLeftPositionWhenFixed (dom : Layout) (this : t) : t :=
  let marginLeft := stickyMarginLeft dom in
  set_leftPositionWhenFixed
    (Some (pageXOffset dom + rect_left (stickyRect dom) - marginLeft)) this.

(** [_createPlaceholder] (lines 317-319) *)
Definition _createPlaceholder (this : t) : t :=
  set_placeholder (Some (Placeholder.create (_sticky this))) this.

(** [_subscribeToWindowScroll] (lines 327-329): the listener handed to
    [window.addEventListener('scroll', _)]. *)
Definition _subscribeToWindowScroll (this : t) : ScrollListener :=
  OnScrollListener.

(** [_onScroll] (lines 340-346): the new instance and the callbacks
    handed to [rAF]. *)
Definition _onScroll (dom : Layout) (this : t) : t * list FrameCallback :=
  if negb (_isTicking this) then
    let this := set_latestKnownScrollY (pageYOffset dom) this in
    let scheduled := [UpdateCallback] in
    let this := set_isTicking true this in
    (this, scheduled)
  else (this, []).

(** [_makeStatic] (lines 361-365) *)
Definition _makeStatic (this : t) : option t :=
  let this :=
    set_sticky (Sticky.with_element (setProperty "position" "static")
                  (_sticky this)) this in
  placeholder ← _placeholder this;
  let this :=
    set_placeholder
      (Some (Placeholder.with_element (setProperty "display" "none")
               placeholder)) this in
  Some (set_posScheme POS_SCHEME_STATIC this).

(** [_makeFixed] (lines 380-387) *)
Definition _makeFixed (this : t) : option t :=
  let restyle el :=
    setProperty "left" (px_nullable (_leftPositionWhenFixed this))
      (setProperty "top" (px (offsetTop this))
         (setProperty "position" "fixed"
            (removeProperty "bottom" el))) in
  let this := set_sticky (Sticky.with_element restyle (_sticky this)) this in
  placeholder ← _placeholder this;
  let this :=
    set_placeholder
      (Some (Placeholder.with_element (setProperty "display" "block")
               placeholder)) this in
  Some (set_posScheme POS_SCHEME_FIXED this).

(** [_makeAbsolute] (lines 402-409) *)
Definition _makeAbsolute (this : t) : option t :=
  let restyle el :=
    setProperty "left" (px_nullable (_leftPositionWhenAbsolute this))
      (setProperty "bottom" (px (Container.paddingBottom (_container this)))
         (setProperty "position" "absolute"
            (removeProperty "top" el))) in
  let this := set_sticky (Sticky.with_element restyle (_sticky this)) this in
  placeholder ← _placeholder this;
  let this :=
    set_placeholder
      (Some (Placeholder.with_element (setProperty "display" "block")
               placeholder)) this in
  Some (set_posScheme POS_SCHEME_ABSOLUTE this).

(** [_isBelowThreshold] (lines 446-451) *)
Definition _isBelowThreshold (this : t) : bool :=
  if bool_decide (_latestKnownScrollY this < ToNumber (_threshold this))
  then true
  else false.

(** [_getAvailableSpaceInContainer] (lines 472-474) *)
Definition _getAvailableSpaceInContainer (dom : Layout) (this : t) : Z :=
  rect_bottom (containerRect dom) - offsetBottom this - offsetTop this.

(** [_canStickyFitInContainer] (lines 460-462) *)
Definition _canStickyFitInContainer (dom : Layout) (this : t) : bool :=
  bool_decide (_getAvailableSpaceInContainer dom this
               >= Sticky.boundingBoxHeight (_sticky this)).

(** [_update] (lines 420-436) *)
Definition _update (dom : Layout) (this : t) : option t :=
  let this := set_isTicking false this in
  if _isBelowThreshold this then
    if negb (_isStatic this) then _makeStatic this else Some this
  else if _canStickyFitInContainer dom this then
    if negb (_isFixed this) then _makeFixed this else Some this
  else
    if negb (_isAbsolute this) then _makeAbsolute this else Some this.

(** [refresh] (lines 497-501) *)
Definition refresh (dom : Layout) (this : t) : option t :=
  this ← _calcThreshold dom this;
  let this := set_sticky (Sticky.refresh dom (_sticky this)) this in
  placeholder ← _placeholder this;
  Some (set_placeholder
          (Some (Placeholder.refresh (_sticky this) placeholder)) this).

(** [_init] (lines 223-246).  The properties [offsetTop] and
    [offsetBottom] do not exist on the object until the two setters
    create them; the record shows 0 in their place until then, and
    nothing reads them before. *)
Definition _init (dom : Layout) (element : HTMLElement) (options : Options)
  : option (t * ScrollListener) :=
  parent ← parentNode element;
  let this :=
    {| _sticky := Sticky.create dom element;
       _container := Container.create dom parent;
       _placeholder := None;
       _posScheme := POS_SCHEME_STATIC;
       _isTicking := false;
       _threshold := None;
       _options := options;
       _leftPositionWhenAbsolute := None;
       _leftPositionWhenFixed := None;
       _latestKnownScrollY := pageYOffset dom;
       offsetTop := 0;
       offsetBottom := 0 |} in
  let this := _setOffsetTop this in
  let this := _setOffsetBottom this in
  this ← _calcThreshold dom this;
  let this := _setLeftPositionWhenAbsolute dom this in
  let this := _setLeftPositionWhenFixed dom this in
  let this := _createPlaceholder this in
  let listener := _subscribeToWindowScroll this in
  Some (this, listener).

(** [create] (lines 207-212) *)
Definition create (dom : Layout) (element : HTMLElement)
    (options : option Options) : option (t * ScrollListener) :=
  let options := default emptyOptions options in
  _init dom element options.

End PositionSticky.

(** ** The stand-alone variant (lines 1-171) *)

Module Standalone.

Record t := {
  element : HTMLElement;
  container : HTMLElement;
  posScheme : option Z;
  isTicking : bool;
  threshold : option Z;
  options : Options;
  latestKnownScrollY : Z;
  offsetTop : Z;
  offsetBottom : Z;
  placeholder : option HTMLElement
}.

Definition set_element (v : HTMLElement) (this : t) : t :=
  {| element := v; container := container this;
     posScheme := posScheme this; isTicking := isTicking this;
     threshold := threshold this; options := options this;
     latestKnownScrollY := latestKnownScrollY this;
     offsetTop := offsetTop this; offsetBottom := offsetBottom this;
     placeholder := placeholder this |}.

Definition set_container (v : HTMLElement) (this : t) : t :=
  {| element := element this; container := v;
     posScheme := posScheme this; isTicking := isTicking this;
     threshold := threshold this; options := options this;
     latestKnownScrollY := latestKnownScrollY this;
     offsetTop := offsetTop this; offsetBottom := offsetBottom this;
     placeholder := placeholder this |}.

Definition set_posScheme (v : option Z) (this : t) : t :=
  {| element := element this; container := container this;
     posScheme := v; isTicking := isTicking this;
     threshold := threshold this; options := options this;
     latestKnownScrollY := latestKnownScrollY this;
     offsetTop := offsetTop this; offsetBottom := offsetBottom this;
     placeholder := placeholder this |}.

Definition set_isTicking (v : bool) (this : t) : t :=
  {| element := element this; container := container this;
     posScheme := posScheme this; isTicking := v;
     threshold := threshold this; options := options this;
     latestKnownScrollY := latestKnownScrollY this;
     offsetTop := offsetTop this; offsetBottom := offsetBottom this;
     placeholder := placeholder this |}.

Definition set_threshold (v : option Z) (this : t) : t :=
  {| element := element this; container := container this;
     posScheme := posScheme this; isTicking := isTicking this;
     threshold := v; options := options this;
     latestKnownScrollY := latestKnownScrollY this;
     offsetTop := offsetTop this; offsetBottom := offsetBottom this;
     placeholder := placeholder this |}.

Definition set_latestKnownScrollY (v : Z) (this : t) : t :=
  {| element := element this; container := container this;
     posScheme := posScheme this; isTicking := isTicking this;
     threshold := threshold this; options := options this;
     latestKnownScrollY := v;
     offsetTop := offsetTop this; offsetBottom := offsetBottom this;
     placeholder := placeholder this |}.

Definition set_offsetTop (v : Z) (this : t) : t :=
  {| element := element this; container := container this;
     posScheme := posScheme this; isTicking := isTicking this;
     threshold := threshold this; options := options this;
     latestKnownScrollY := latestKnownScrollY this;
     offsetTop := v; offsetBottom := offsetBottom this;
     placeholder := placeholder this |}.

Definition set_offsetBottom (v : Z) (this : t) : t :=
  {| element := element this; container := container this;
     posScheme := posScheme this; isTicking := isTicking this;
     threshold := threshold this; options := options this;
     latestKnownScrollY := latestKnownScrollY this;
     offsetTop := offsetTop this; offsetBottom := v;
     placeholder := placeholder this |}.

Definition set_placeholder (v : option HTMLElement) (this : t) : t :=
  {| element := element this; container := container this;
     posScheme := posScheme this; isTicking := isTicking this;
     threshold := threshold this; options := options this;
     latestKnownScrollY := latestKnownScrollY this;
     offsetTop := offsetTop this; offsetBottom := offsetBottom this;
     placeholder := v |}.

(** [validateContainerPosScheme] (lines 38-43) *)
Definition validateContainerPosScheme (this : t) : t :=
  let containerPosScheme := getPropertyValue "position" (container this) in
  if bool_decide (containerPosScheme ≠ "relative")
     && bool_decide (containerPosScheme ≠ "absolute")
  then set_container (setProperty "position" "relative" (container this)) this
  else this.

(** [setOffsetTop] (lines 45-53) *)
Definition setOffsetTop (dom : Layout) (this : t) : t :=
  match offsetTopOption (options this) with
  | Some n => set_offsetTop n this
  | None =>
      let topBorderWidth := cs_borderTopWidth (containerBox dom) in
      let topPadding := cs_paddingTop (containerBox dom) in
      set_offsetTop (topBorderWidth + topPadding) this
  end.

(** [setOffsetBottom] (lines 55-59) *)
Definition setOffsetBottom (dom : Layout) (this : t) : t :=
  let bottomBorderWidth := cs_borderBottomWidth (containerBox dom) in
  let bottomPadding := cs_paddingBottom (containerBox dom) in
  set_offsetBottom (bottomBorderWidth + bottomPadding) this.

(** The loop of [getElementDistanceFromDocumentTop] (lines 165-167):
    [do { total = total + element.offsetTop }
     while (element = element.offsetParent)]. *)
Fixpoint offsetParentLoop (totalOffsetTop : Z) (element : OffsetBox) : Z :=
  match element with
  | MkOffsetBox top parent =>
      let totalOffsetTop := totalOffsetTop + top in
      match parent with
      | Some element => offsetParentLoop totalOffsetTop element
      | None => totalOffsetTop
      end
  end.

(** [getElementDistanceFromDocumentTop] (lines 158-170) *)
Definition getElementDistanceFromDocumentTop (dom : Layout) (this : t) : Z :=
  if bool_decide (latestKnownScrollY this = 0) then
    rect_top (stickyRect dom)
  else
    offsetParentLoop 0 (stickyOffsets dom).

(** [calcThreshold] (lines 61-63) *)
Definition calcThreshold (dom : Layout) (this : t) : t :=
  set_threshold
    (Some (getElementDistanceFromDocumentTop dom this - offsetTop this)) this.

(** [createPlaceholder] (lines 65-77).  [insertBefore] changes the tree,
    not a style, and is not recorded. *)
Definition createPlaceholder (dom : Layout) (this : t) : t :=
  let placeholder := createElement in
  let width := px (rect_width (stickyRect dom)) in
  let height := px (rect_height (stickyRect dom)) in
  let placeholder := setProperty "display" "none" placeholder in
  let placeholder := setProperty "width" width placeholder in
  let placeholder := setProperty "height" height placeholder in
  let this := set_element (setProperty "width" width (element this)) this in
  set_placeholder (Some placeholder) this.

(** [subscribeToWindowScroll] (lines 79-81) *)
Definition subscribeToWindowScroll (this : t) : ScrollListener :=
  OnScrollListener.

(** [onScroll] (lines 83-89) *)
Definition onScroll (dom : Layout) (this : t) : t * list FrameCallback :=
  if negb (isTicking this) then
    let this := set_latestKnownScrollY (pageYOffset dom) this in
    let scheduled := [UpdateCallback] in
    let this := set_isTicking true this in
    (this, scheduled)
  else (this, []).

(** [isStatic], [isFixed], [isAbsolute] (lines 91-93, 101-103, 113-115) *)
Definition isStatic (this : t) : bool :=
  bool_decide (posScheme this = Some POS_SCHEME_STATIC).

Definition isFixed (this : t) : bool :=
  bool_decide (posScheme this = Some POS_SCHEME_FIXED).

Definition isAbsolute (this : t) : bool :=
  bool_decide (posScheme this = Some POS_SCHEME_ABSOLUTE).

(** [makeStatic] (lines 95-99) *)
Definition makeStatic (this : t) : option t :=
  let this := set_element (setProperty "position" "static" (element this)) this in
  placeholder ← placeholder this;
  let this :=
    set_placeholder (Some (setProperty "display" "none" placeholder)) this in
  Some (set_posScheme (Some POS_SCHEME_STATIC) this).

(** [makeFixed] (lines 105-111) *)
Definition makeFixed (this : t) : option t :=
  let restyle el :=
    setProperty "top" (px (offsetTop this))
      (setProperty "position" "fixed"
         (removeProperty "bottom" el)) in
  let this := set_element (restyle (element this)) this in
  placeholder ← placeholder this;
  let this :=
    set_placeholder (Some (setProperty "display" "block" placeholder)) this in
  Some (set_posScheme (Some POS_SCHEME_FIXED) this).

(** [makeAbsolute] (lines 117-123) *)
Definition makeAbsolute (this : t) : option t :=
  let restyle el :=
    setProperty "bottom" (px (offsetBottom this))
      (setProperty "position" "absolute"
         (removeProperty "top" el)) in
  let this := set_element (restyle (element this)) this in
  placeholder ← placeholder this;
  let this :=
    set_placeholder (Some (setProperty "display" "block" placeholder)) this in
  Some (set_posScheme (Some POS_SCHEME_ABSOLUTE) this).

(** [isBelowThreshold] (lines 143-148) *)
Definition isBelowThreshold (this : t) : bool :=
  if bool_decide (latestKnownScrollY this < ToNumber (threshold this))
  then true
  else false.

(** [getAvailableSpaceInContainer] (lines 154-156) *)
Definition getAvailableSpaceInContainer (dom : Layout) (this : t) : Z :=
  rect_bottom (containerRect dom) - offsetBottom this - offsetTop this.

(** [canStickyFitInContainer] (lines 150-152) *)
Definition canStickyFitInContainer (dom : Layout) (this : t) : bool :=
  bool_decide (getAvailableSpaceInContainer dom this
               >= rect_height (stickyRect dom)).

(** [update] (lines 125-141) *)
Definition update (dom : Layout) (this : t) : option t :=
  let this := set_isTicking false this in
  if isBelowThreshold this then
    if negb (isStatic this) then makeStatic this else Some this
  else if canStickyFitInContainer dom this then
    if negb (isFixed this) then makeFixed this else Some this
  else
    if negb (isAbsolute this) then makeAbsolute this else Some this.

(** [init] (lines 17-36).  As in the modular variant, [offsetTop] and
    [offsetBottom] show 0 until their setters have run; [placeholder]
    is [undefined] until [createPlaceholder]. *)
Definition init (dom : Layout) (el : HTMLElement) (opts : Options)
  : option (t * ScrollListener) :=
  parent ← parentNode el;
  let this :=
    {| element := el;
       container := parent;
       posScheme := None;
       isTicking := false;
       threshold := None;
       options := opts;
       latestKnownScrollY := pageYOffset dom;
       offsetTop := 0;
       offsetBottom := 0;
       placeholder := None |} in
  let this := validateContainerPosScheme this in
  let this := setOffsetTop dom this in
  let this := setOffsetBottom dom this in
  let this := calcThreshold dom this in
  let this := createPlaceholder dom this in
  let listener := subscribeToWindowScroll this in
  Some (this, listener).

(** [create] (lines 10-15) *)
Definition create (dom : Layout) (el : HTMLElement)
    (opts : option Options) : option (t * ScrollListener) :=
  let opts := default emptyOptions opts in
  init dom el opts.

End Standalone.

(** ** The browser's side: scroll notifications and animation frames

    The window keeps the listeners registered for its scroll event and
    the callbacks waiting for the next animation frame.  A scroll
    notification runs every listener; an animation frame runs, once each,
    the callbacks that were waiting when it started.  [evaluations] is
    the trace of evaluations: one entry per call of [update], holding the
    scroll offset the instance had recorded when the call began. *)

Section EventLoop.

Variable T : Type.
Variable onScroll : Layout → T → T * list FrameCallback.
Variable update : Layout → T → option T.
Variable recordedScrollY : T → Z.

Record Host := {
  instance : T;
  listeners : list ScrollListener;
  frameQueue : list FrameCallback;
  evaluations : list Z
}.

Inductive Event :=
  | ScrollEvent (dom : Layout)
  | AnimationFrame (dom : Layout).

Fixpoint dispatchScroll (dom : Layout) (ls : list ScrollListener) (h : Host)
  : Host :=
  match ls with
  | [] => h
  | OnScrollListener :: ls =>
      let '(this, scheduled) := onScroll dom (instance h) in
      dispatchScroll dom ls
        {| instance := this;
           listeners := listeners h;
           frameQueue := frameQueue h ++ scheduled;
           evaluations := evaluations h |}
  end.

Fixpoint runCallbacks (dom : Layout) (cbs : list FrameCallback) (h : Host)
  : option Host :=
  match cbs with
  | [] => Some h
  | UpdateCallback :: cbs =>
      this ← update dom (instance h);
      runCallbacks dom cbs
        {| instance := this;
           listeners := listeners h;
           frameQueue := frameQueue h;
           evaluations := evaluations h ++ [recordedScrollY (instance h)] |}
  end.

Definition step (e : Event) (h : Host) : option Host :=
  match e with
  | ScrollEvent dom => Some (dispatchScroll dom (listeners h) h)
  | AnimationFrame dom =>
      runCallbacks dom (frameQueue h)
        {| instance := instance h;
           listeners := listeners h;
           frameQueue := [];
           evaluations := evaluations h |}
  end.

Fixpoint run (es : list Event) (h : Host) : option Host :=
  match es with
  | [] => Some h
  | e :: es => h ← step e h; run es h
  end.

(** The window right after the instance was created and subscribed. *)
Definition boot (created : T * ScrollListener) : Host :=
  {| instance := created.1;
     listeners := [created.2];
     frameQueue := [];
     evaluations := [] |}.

End EventLoop.

Arguments instance {T} _.
Arguments listeners {T} _.
Arguments frameQueue {T} _.
Arguments evaluations {T} _.
Arguments boot {T} _.

(** The two instantiations. *)

Definition ModularHost := Host PositionSticky.t.

Definition modular_step : Event → ModularHost → option ModularHost :=
  step PositionSticky.t PositionSticky._onScroll PositionSticky._update
    PositionSticky._latestKnownScrollY.

Definition modular_run : list Event → ModularHost → option ModularHost :=
  run PositionSticky.t PositionSticky._onScroll PositionSticky._update
    PositionSticky._latestKnownScrollY.

Definition StandaloneHost := Host Standalone.t.

Definition standalone_run
  : list Event → StandaloneHost → option StandaloneHost :=
  run Standalone.t Standalone.onScroll Standalone.update
    Standalone.latestKnownScrollY.

(** ** Statements of the specification, kept next to the code

    Each definition below follows the wording of the specification, not
    the source; the proofs compare the two. *)

(** The evaluation rule as section 4.3 writes it. *)
Definition specScheme (latestScrollY threshold availableSpace height : Z) : Z :=
  let fits := bool_decide (availableSpace >= height) in
  if bool_decide (latestScrollY < threshold) then POS_SCHEME_STATIC
  else if fits then POS_SCHEME_FIXED
  else POS_SCHEME_ABSOLUTE.

(** ** Public operations on a running page *)

(** What can happen to an instance of the modular variant once it is
    created: the browser notifies a scroll or runs an animation frame, or
    the embedding code calls [refresh]. *)
Inductive Action :=
  | Notify (e : Event)
  | CallRefresh (dom : Layout).

Definition act (a : Action) (h : ModularHost) : option ModularHost :=
  match a with
  | Notify e => modular_step e h
  | CallRefresh dom =>
      this ← PositionSticky.refresh dom (instance h);
      Some {| instance := this;
              listeners := listeners h;
              frameQueue := frameQueue h;
              evaluations := evaluations h |}
  end.

Fixpoint perform (actions : list Action) (h : ModularHost)
  : option ModularHost :=
  match actions with
  | [] => Some h
  | a :: actions => h ← act a h; perform actions h
  end.

(** Exactly one of the three scheme tests holds. *)
Definition inOneScheme (this : PositionSticky.t) : Prop :=
  match PositionSticky._isStatic this, PositionSticky._isFixed this,
        PositionSticky._isAbsolute this with
  | true, false, false => True
  | false, true, false => True
  | false, false, true => True
  | _, _, _ => False
  end.

(** The invariant of section 3: one scheme, and the placeholder shown
    exactly when that scheme is not Static. *)
Definition schemeInvariant (this : PositionSticky.t) : Prop :=
  inOneScheme this
  ∧ ∃ p, PositionSticky._placeholder this = Some p
         ∧ Placeholder.visible p = negb (PositionSticky._isStatic this).

(** The debounce property as section 8 words it: after the notifications
    and the frame, one more evaluation is on the trace, made with the
    offset of the most recent notification. *)
Definition evaluatesMostRecentOffset
    (h : ModularHost) (first : Layout) (later : list Layout) (frame : Layout)
  : Prop :=
  ∃ h',
    modular_run
      (ScrollEvent first :: (ScrollEvent <$> later) ++ [AnimationFrame frame]) h
    = Some h'
    ∧ evaluations h'
      = evaluations h ++ [pageYOffset (default first (last later))].

(** A host with one subscribed instance and no frame requested. *)
Definition idleModular (h : ModularHost) : Prop :=
  is_Some (PositionSticky._placeholder (instance h))
  ∧ listeners h = [OnScrollListener]
  ∧ frameQueue h = []
  ∧ PositionSticky._isTicking (instance h) = false.

Definition idleStandalone (g : StandaloneHost) : Prop :=
  is_Some (Standalone.placeholder (instance g))
  ∧ listeners g = [OnScrollListener]
  ∧ frameQueue g = []
  ∧ Standalone.isTicking (instance g) = false.

(** The sum of [offsetTop] along the offset-parent chain. *)
Fixpoint offsetParentChainSum (b : OffsetBox) : Z :=
  match b with
  | MkOffsetBox top parent =>
      top + match parent with
            | Some b => offsetParentChainSum b
            | None => 0
            end
  end.

(** The distance from the document top as section 4.3, step 4, words it:
    scroll offset plus viewport-relative top when the scroll offset is
    not zero, the offset-parent-chain sum when it is exactly zero. *)
Definition specDistanceFromDocumentTop (dom : Layout) (scrollY : Z) : Z :=
  if bool_decide (scrollY = 0) then offsetParentChainSum (stickyOffsets dom)
  else scrollY + rect_top (stickyRect dom).

Definition thresholdAsSpecified
    (dom : Layout) (scrollY offsetTop : Z) (threshold : option Z) : Prop :=
  threshold = Some (specDistanceFromDocumentTop dom scrollY - offsetTop).

(** The style properties section 4.3 attaches to each scheme, [position]
    (which all three set) apart: Fixed has [top] and [left], Absolute has
    [bottom] and [left], Static has none. *)
Definition schemeProperties (scheme : Z) : list string :=
  if bool_decide (scheme = POS_SCHEME_FIXED) then ["top"; "left"]
  else if bool_decide (scheme = POS_SCHEME_ABSOLUTE) then ["bottom"; "left"]
  else [].

(** The properties of the other two schemes that a scheme does not set
    itself. *)
Definition otherSchemesProperties (scheme : Z) : list string :=
  filter (λ k, k ∉ schemeProperties scheme)
    (concat (schemeProperties
               <$> filter (λ other, other ≠ scheme)
                     [POS_SCHEME_STATIC; POS_SCHEME_FIXED; POS_SCHEME_ABSOLUTE])).

(** "Transitioning to a scheme always clears properties associated with
    the other two" (section 8), read on the element's style after the
    transition. *)
Definition clearsOtherSchemes (scheme : Z) (el : HTMLElement) : Prop :=
  ∀ k, k ∈ otherSchemesProperties scheme → style el !! k = None.

(** ** Further notions: the stand-alone invariant, what stays fixed, rounds *)

(** The offsets met by the loop of [getElementDistanceFromDocumentTop]:
    the element's own [offsetTop], then its offset parent's, and so on up
    the chain. *)
Fixpoint offsetChain (b : OffsetBox) : list Z :=
  match b with
  | MkOffsetBox top parent =>
      top :: match parent with
             | Some b => offsetChain b
             | None => []
             end
  end.

(** The inline position, top and bottom of an element. *)
Definition positioned (el : HTMLElement) (position : string)
    (top bottom : option string) : Prop :=
  style el !! "position" = Some position
  ∧ style el !! "top" = top
  ∧ style el !! "bottom" = bottom.

(** Stand-alone variant: the placeholder exists; while no scheme has been
    applied it is hidden; once one has, the scheme is one of the three
    constants and the styles of element and placeholder are the ones that
    scheme's transition writes. *)
Definition standaloneInvariant (s : Standalone.t) : Prop :=
  ∃ p,
    Standalone.placeholder s = Some p
    ∧ match Standalone.posScheme s with
      | None => style p !! "display" = Some "none"
      | Some scheme =>
          (scheme = POS_SCHEME_STATIC
           ∧ style p !! "display" = Some "none"
           ∧ style (Standalone.element s) !! "position" = Some "static")
          ∨ (scheme = POS_SCHEME_FIXED
             ∧ style p !! "display" = Some "block"
             ∧ positioned (Standalone.element s) "fixed"
                 (Some (px (Standalone.offsetTop s))) None)
          ∨ (scheme = POS_SCHEME_ABSOLUTE
             ∧ style p !! "display" = Some "block"
             ∧ positioned (Standalone.element s) "absolute"
                 None (Some (px (Standalone.offsetBottom s))))
      end.

(** Modular variant: in the Fixed and in the Absolute scheme the element
    carries the styles that scheme's transition writes. *)
Definition modularStyleMatches (m : PositionSticky.t) : Prop :=
  let el := Sticky.element (PositionSticky._sticky m) in
  (PositionSticky._posScheme m = POS_SCHEME_FIXED →
   positioned el "fixed" (Some (px (PositionSticky.offsetTop m))) None
   ∧ style el !! "left"
     = Some (px_nullable (PositionSticky._leftPositionWhenFixed m)))
  ∧ (PositionSticky._posScheme m = POS_SCHEME_ABSOLUTE →
     positioned el "absolute" None
       (Some (px (Container.paddingBottom (PositionSticky._container m))))
     ∧ style el !! "left"
       = Some (px_nullable (PositionSticky._leftPositionWhenAbsolute m))).

(** The properties the transitions assign. *)
Definition positioningProperties : list string :=
  ["position"; "top"; "bottom"; "left"].

(** The styles of [m'] are those of [m] except, on the sticky element,
    for the positioning properties and, on the placeholder, for
    [display]. *)
Definition modularStylesKept (m m' : PositionSticky.t) : Prop :=
  (∀ k, k ∉ positioningProperties →
        style (Sticky.element (PositionSticky._sticky m')) !! k
        = style (Sticky.element (PositionSticky._sticky m)) !! k)
  ∧ ∃ p p',
      PositionSticky._placeholder m = Some p
      ∧ PositionSticky._placeholder m' = Some p'
      ∧ ∀ k, k ≠ "display" →
             style (Placeholder.element p') !! k
             = style (Placeholder.element p) !! k.

(** The same for the stand-alone variant, which never assigns [left]. *)
Definition standaloneStylesKept (s s' : Standalone.t) : Prop :=
  (∀ k, k ∉ ["position"; "top"; "bottom"] →
        style (Standalone.element s') !! k = style (Standalone.element s) !! k)
  ∧ ∃ p p',
      Standalone.placeholder s = Some p
      ∧ Standalone.placeholder s' = Some p'
      ∧ ∀ k, k ≠ "display" → style p' !! k = style p !! k.

(** The fields that neither a scroll notification nor an evaluation
    writes. *)
Definition modularFrozen (m : PositionSticky.t) :=
  (PositionSticky._threshold m, PositionSticky.offsetTop m,
   PositionSticky.offsetBottom m, PositionSticky._leftPositionWhenAbsolute m,
   PositionSticky._leftPositionWhenFixed m, PositionSticky._container m,
   Sticky.boundingBoxHeight (PositionSticky._sticky m),
   PositionSticky._options m).

Definition standaloneFrozen (s : Standalone.t) :=
  (Standalone.threshold s, Standalone.offsetTop s, Standalone.offsetBottom s,
   Standalone.container s, Standalone.options s).

(** What a scroll notification leaves alone: everything but the recorded
    scroll offset and the pending flag. *)
Definition modularScrollView (m : PositionSticky.t) :=
  (PositionSticky._sticky m, PositionSticky._placeholder m,
   PositionSticky._posScheme m, modularFrozen m).

Definition standaloneScrollView (s : Standalone.t) :=
  (Standalone.element s, Standalone.placeholder s, Standalone.posScheme s,
   standaloneFrozen s).

(** The pending flag and the frame queue tell the same story: one
    callback is waiting exactly when the flag is set. *)
Definition pendingConsistent {T : Type} (ticking : T → bool) (h : Host T)
  : Prop :=
  listeners h = [OnScrollListener]
  ∧ frameQueue h = if ticking (instance h) then [UpdateCallback] else [].

Fixpoint countFrames (es : list Event) : nat :=
  match es with
  | [] => 0
  | AnimationFrame _ :: es => S (countFrames es)
  | ScrollEvent _ :: es => countFrames es
  end.

Fixpoint countScrolls (es : list Event) : nat :=
  match es with
  | [] => 0
  | ScrollEvent _ :: es => S (countScrolls es)
  | AnimationFrame _ :: es => countScrolls es
  end.

(** A round: a first scroll notification, the notifications that follow
    it before the frame, and the frame. *)
Definition Round : Type := Layout * list Layout * Layout.

Definition roundEvents (r : Round) : list Event :=
  ScrollEvent r.1.1 :: (ScrollEvent <$> r.1.2) ++ [AnimationFrame r.2].

Definition roundsEvents (rounds : list Round) : list Event :=
  concat (roundEvents <$> rounds).

(** ** A sample page

    The container has a 2px top border, 8px of top padding, a 5px bottom
    border and 10px of bottom padding; the element is 100px high and sits
    50px below the top of the document. *)

Definition sampleLayout (scrollY : Z) (containerBottom : Z) : Layout :=
  {| pageXOffset := 0;
     pageYOffset := scrollY;
     stickyRect := {| rect_top := 50 - scrollY; rect_left := 20;
                      rect_bottom := 150 - scrollY;
                      rect_width := 200; rect_height := 100 |};
     stickyOffsetLeft := 12;
     stickyMarginLeft := 4;
     stickyOffsets := MkOffsetBox 10 (Some (MkOffsetBox 35 None));
     placeholderRect := {| rect_top := 50 - scrollY; rect_left := 20;
                           rect_bottom := 150 - scrollY;
                           rect_width := 200; rect_height := 100 |};
     containerRect := {| rect_top := 40 - scrollY; rect_left := 8;
                         rect_bottom := containerBottom;
                         rect_width := 216; rect_height := 600 |};
     containerBox := {| cs_borderTopWidth := 2; cs_borderBottomWidth := 5;
                        cs_paddingTop := 8; cs_paddingBottom := 10 |} |}.

Definition sampleElement : HTMLElement :=
  {| style := ∅; styleWrites := [];
     parentNode := Some {| style := ∅; styleWrites := []; parentNode := None |} |}.

(** The instance [create] returns on the sample page at scroll offset 0. *)
Definition sampleInstance : PositionSticky.t :=
  let dom := sampleLayout 0 640 in
  let sticky := Sticky.create dom sampleElement in
  {| PositionSticky._sticky := sticky;
     PositionSticky._container :=
       Container.create dom
         {| style := ∅; styleWrites := []; parentNode := None |};
     PositionSticky._placeholder := Some (Placeholder.create sticky);
     PositionSticky._posScheme := POS_SCHEME_STATIC;
     PositionSticky._isTicking := false;
     PositionSticky._threshold := Some 40;
     PositionSticky._options := emptyOptions;
     PositionSticky._leftPositionWhenAbsolute := Some 8;
     PositionSticky._leftPositionWhenFixed := Some 16;
     PositionSticky._latestKnownScrollY := 0;
     PositionSticky.offsetTop := 10;
     PositionSticky.offsetBottom := 15 |}.

(** Its stand-alone counterpart. *)
Definition sampleStandalone : Standalone.t :=
  let dom := sampleLayout 0 640 in
  {| Standalone.element := setProperty "width" "200px" sampleElement;
     Standalone.container :=
       setProperty "position" "relative"
         {| style := ∅; styleWrites := []; parentNode := None |};
     Standalone.posScheme := None;
     Standalone.isTicking := false;
     Standalone.threshold := Some 40;
     Standalone.options := emptyOptions;
     Standalone.latestKnownScrollY := 0;
     Standalone.offsetTop := 10;
     Standalone.offsetBottom := 15;
     Standalone.placeholder :=
       Some (setProperty "height" "100px"
               (setProperty "width" "200px"
                  (setProperty "display" "none" createElement))) |}.

(** The sample instance after a scroll notification at offset 60. *)
Definition sampleScrolled : PositionSticky.t :=
  (PositionSticky._onScroll (sampleLayout 60 580) sampleInstance).1.

(** The page once the element is stuck: scrolled to 60, the element is
    fixed 10px below the top of the viewport while the placeholder, in
    the flow, is 10px above it. *)
Definition sampleStuck : Layout :=
  {| pageXOffset := 0;
     pageYOffset := 60;
     stickyRect := {| rect_top := 10; rect_left := 20; rect_bottom := 110;
                      rect_width := 200; rect_height := 100 |};
     stickyOffsetLeft := 12;
     stickyMarginLeft := 4;
     stickyOffsets := stickyOffsets (sampleLayout 60 580);
     placeholderRect := placeholderRect (sampleLayout 60 580);
     containerRect := containerRect (sampleLayout 60 580);
     containerBox := containerBox (sampleLayout 60 580) |}.

(** The sample instance after the frame that follows that notification:
    the scheme is Fixed. *)
Definition sampleFixed : PositionSticky.t :=
  default sampleScrolled
    (PositionSticky._update (sampleLayout 60 580) sampleScrolled).

(** On the sample page, with the container's computed box changed to a
    20px bottom border and 30px of bottom padding. *)
Definition sampleRestyled : Layout :=
  {| pageXOffset := 0;
     pageYOffset := 60;
     stickyRect := stickyRect (sampleLayout 60 580);
     stickyOffsetLeft := 12;
     stickyMarginLeft := 4;
     stickyOffsets := stickyOffsets (sampleLayout 60 580);
     placeholderRect := placeholderRect (sampleLayout 60 580);
     containerRect := containerRect (sampleLayout 60 580);
     containerBox := {| cs_borderTopWidth := 1; cs_borderBottomWidth := 20;
                        cs_paddingTop := 3; cs_paddingBottom := 30 |} |}.

(** * Proofs *)

(** ** Basic facts *)

Lemma sampleInstance_created :
  PositionSticky.create (sampleLayout 0 640) sampleElement None
  = Some (sampleInstance, OnScrollListener).
Proof. vm_compute. reflexivity. Qed.

Lemma sampleStandalone_created :
  Standalone.create (sampleLayout 0 640) sampleElement None
  = Some (sampleStandalone, OnScrollListener).
Proof. vm_compute. reflexivity. Qed.

Lemma schemes_distinct :
  POS_SCHEME_STATIC ≠ POS_SCHEME_FIXED
  ∧ POS_SCHEME_STATIC ≠ POS_SCHEME_ABSOLUTE
  ∧ POS_SCHEME_FIXED ≠ POS_SCHEME_ABSOLUTE.
Proof. unfold POS_SCHEME_STATIC, POS_SCHEME_FIXED, POS_SCHEME_ABSOLUTE. lia. Qed.

(** ** Evaluation in the modular variant *)

Section ModularUpdate.

Import PositionSticky.

Ltac open_update :=
  unfold _update, specScheme, _isBelowThreshold, _canStickyFitInContainer,
    _getAvailableSpaceInContainer, _isStatic, _isFixed, _isAbsolute,
    _makeStatic, _makeFixed, _makeAbsolute,
    POS_SCHEME_STATIC, POS_SCHEME_FIXED, POS_SCHEME_ABSOLUTE in *;
  simpl in *.

(** What one evaluation does to an instance that has its placeholder. *)
Lemma update_effect (dom : Layout) (this : t) :
  is_Some (_placeholder this) →
  ∃ this',
    _update dom this = Some this'
    ∧ _posScheme this'
      = specScheme (_latestKnownScrollY this) (ToNumber (_threshold this))
          (rect_bottom (containerRect dom) - offsetBottom this - offsetTop this)
          (Sticky.boundingBoxHeight (_sticky this))
    ∧ (_posScheme this' = _posScheme this → this' = set_isTicking false this)
    ∧ _isTicking this' = false
    ∧ is_Some (_placeholder this').
Proof.
  intros [p Hp]. destruct this; simpl in Hp; subst.
  open_update.
  repeat (case_bool_decide; simpl);
    eexists; (split; [reflexivity|]); simpl;
    repeat split; eauto; try lia; intros; try lia; subst; reflexivity.
Qed.

(** What one evaluation leaves alone. *)
Lemma update_frame (dom : Layout) (this this' : t) :
  _update dom this = Some this' →
  _threshold this' = _threshold this
  ∧ _latestKnownScrollY this' = _latestKnownScrollY this
  ∧ offsetTop this' = offsetTop this
  ∧ offsetBottom this' = offsetBottom this
  ∧ Sticky.boundingBoxHeight (_sticky this')
    = Sticky.boundingBoxHeight (_sticky this)
  ∧ _container this' = _container this.
Proof.
  destruct this as [? ? [p|] ? ? ? ? ? ? ? ? ?]; open_update;
    repeat (case_bool_decide; simpl);
    intros Hret; inversion Hret; subst; simpl; repeat split; reflexivity.
Qed.

(** Clearing a flag that is already clear changes nothing. *)
Lemma set_isTicking_same (this : t) :
  _isTicking this = false → set_isTicking false this = this.
Proof. destruct this; simpl; intros ->; reflexivity. Qed.

End ModularUpdate.

(** ** Evaluation in the stand-alone variant *)

Section StandaloneUpdate.

Import Standalone.

Ltac open_update :=
  unfold update, specScheme, isBelowThreshold, canStickyFitInContainer,
    getAvailableSpaceInContainer, isStatic, isFixed, isAbsolute,
    makeStatic, makeFixed, makeAbsolute,
    POS_SCHEME_STATIC, POS_SCHEME_FIXED, POS_SCHEME_ABSOLUTE in *;
  simpl in *.

Lemma standalone_update_effect (dom : Layout) (this : t) :
  is_Some (placeholder this) →
  ∃ this',
    update dom this = Some this'
    ∧ posScheme this'
      = Some (specScheme (latestKnownScrollY this) (ToNumber (threshold this))
                (rect_bottom (containerRect dom) - offsetBottom this
                 - offsetTop this)
                (rect_height (stickyRect dom)))
    ∧ (posScheme this' = posScheme this → this' = set_isTicking false this)
    ∧ isTicking this' = false
    ∧ is_Some (placeholder this').
Proof.
  intros [p Hp]. destruct this; simpl in Hp; subst.
  open_update.
  repeat (case_bool_decide; simpl);
    eexists; (split; [reflexivity|]); simpl;
    repeat split; eauto; try congruence; intros; subst; reflexivity.
Qed.

Lemma standalone_update_frame (dom : Layout) (this this' : t) :
  update dom this = Some this' →
  threshold this' = threshold this
  ∧ latestKnownScrollY this' = latestKnownScrollY this
  ∧ offsetTop this' = offsetTop this
  ∧ offsetBottom this' = offsetBottom this.
Proof.
  destruct this as [? ? ? ? ? ? ? ? ? [p|]]; open_update;
    repeat (case_bool_decide; simpl);
    intros Hret; inversion Hret; subst; simpl; repeat split; reflexivity.
Qed.

Lemma standalone_set_isTicking_same (this : t) :
  isTicking this = false → set_isTicking false this = this.
Proof. destruct this; simpl; intros ->; reflexivity. Qed.

End StandaloneUpdate.

Lemma specScheme_static (y th space h : Z) :
  y < th → specScheme y th space h = POS_SCHEME_STATIC.
Proof. intros. unfold specScheme. rewrite bool_decide_true by done. done. Qed.

Lemma specScheme_fixed (y th space h : Z) :
  ¬ y < th → space >= h → specScheme y th space h = POS_SCHEME_FIXED.
Proof.
  intros. unfold specScheme.
  rewrite bool_decide_false by done. rewrite bool_decide_true by done. done.
Qed.

Lemma specScheme_absolute (y th space h : Z) :
  ¬ y < th → ¬ space >= h → specScheme y th space h = POS_SCHEME_ABSOLUTE.
Proof.
  intros. unfold specScheme.
  rewrite bool_decide_false by done. rewrite bool_decide_false by done. done.
Qed.

(** ** C1: the evaluation rule *)

(** C1.  One evaluation, in either variant, of an instance that has its
    placeholder: it returns; the scheme it leaves is Static when the
    recorded scroll offset is strictly below the threshold, otherwise
    Fixed when the container's bounding-rect bottom minus [offsetBottom]
    minus [offsetTop] is at least the element's height, otherwise
    Absolute; and when that scheme is the one the instance already had,
    the sticky element and the placeholder come out exactly as they went
    in, style and trace of style assignments included. *)
Theorem update_chooses_scheme
    (dom : Layout) (m : PositionSticky.t) (s : Standalone.t) :
  is_Some (PositionSticky._placeholder m) →
  is_Some (Standalone.placeholder s) →
  (∃ m',
     PositionSticky._update dom m = Some m'
     ∧ let y := PositionSticky._latestKnownScrollY m in
       let th := ToNumber (PositionSticky._threshold m) in
       let space := rect_bottom (containerRect dom)
                    - PositionSticky.offsetBottom m - PositionSticky.offsetTop m in
       let h := Sticky.boundingBoxHeight (PositionSticky._sticky m) in
       (y < th → PositionSticky._posScheme m' = POS_SCHEME_STATIC)
       ∧ (¬ y < th → space >= h →
          PositionSticky._posScheme m' = POS_SCHEME_FIXED)
       ∧ (¬ y < th → ¬ space >= h →
          PositionSticky._posScheme m' = POS_SCHEME_ABSOLUTE)
       ∧ (PositionSticky._posScheme m' = PositionSticky._posScheme m →
          Sticky.element (PositionSticky._sticky m')
          = Sticky.element (PositionSticky._sticky m)
          ∧ PositionSticky._placeholder m' = PositionSticky._placeholder m))
  ∧ (∃ s',
       Standalone.update dom s = Some s'
       ∧ let y := Standalone.latestKnownScrollY s in
         let th := ToNumber (Standalone.threshold s) in
         let space := rect_bottom (containerRect dom)
                      - Standalone.offsetBottom s - Standalone.offsetTop s in
         let h := rect_height (stickyRect dom) in
         (y < th → Standalone.posScheme s' = Some POS_SCHEME_STATIC)
         ∧ (¬ y < th → space >= h →
            Standalone.posScheme s' = Some POS_SCHEME_FIXED)
         ∧ (¬ y < th → ¬ space >= h →
            Standalone.posScheme s' = Some POS_SCHEME_ABSOLUTE)
         ∧ (Standalone.posScheme s' = Standalone.posScheme s →
            Standalone.element s' = Standalone.element s
            ∧ Standalone.placeholder s' = Standalone.placeholder s)).
Proof.
  intros Hm Hs. split.
  - destruct (update_effect dom m Hm) as (m' & Hu & Hscheme & Hsame & _).
    exists m'. split; [exact Hu|]. cbv zeta.
    repeat split.
    + intros. rewrite Hscheme. by apply specScheme_static.
    + intros. rewrite Hscheme. by apply specScheme_fixed.
    + intros. rewrite Hscheme. by apply specScheme_absolute.
    + rewrite (Hsame H). reflexivity.
    + rewrite (Hsame H). reflexivity.
  - destruct (standalone_update_effect dom s Hs)
      as (s' & Hu & Hscheme & Hsame & _).
    exists s'. split; [exact Hu|]. cbv zeta.
    repeat split.
    + intros. rewrite Hscheme. f_equal. by apply specScheme_static.
    + intros. rewrite Hscheme. f_equal. by apply specScheme_fixed.
    + intros. rewrite Hscheme. f_equal. by apply specScheme_absolute.
    + rewrite (Hsame H). reflexivity.
    + rewrite (Hsame H). reflexivity.
Qed.

Lemma update_chooses_scheme_witness :
  is_Some (PositionSticky._placeholder sampleScrolled)
  ∧ is_Some (Standalone.placeholder sampleStandalone)
  ∧ (∃ m', PositionSticky._update (sampleLayout 60 580) sampleScrolled = Some m'
           ∧ PositionSticky._posScheme m' = POS_SCHEME_FIXED)
  ∧ (∃ s', Standalone.update (sampleLayout 0 640) sampleStandalone = Some s'
           ∧ Standalone.posScheme s' = Some POS_SCHEME_STATIC).
Proof.
  assert (Hm : is_Some (PositionSticky._placeholder sampleScrolled))
    by (eexists; reflexivity).
  assert (Hs : is_Some (Standalone.placeholder sampleStandalone))
    by (eexists; reflexivity).
  split; [exact Hm|]. split; [exact Hs|]. split.
  - destruct (update_chooses_scheme (sampleLayout 60 580) sampleScrolled
                sampleStandalone Hm Hs) as [(m' & Hu & _ & Hfixed & _) _].
    exists m'. split; [exact Hu|]. apply Hfixed; vm_compute; discriminate.
  - destruct (update_chooses_scheme (sampleLayout 0 640) sampleScrolled
                sampleStandalone Hm Hs) as [_ (s' & Hu & Hstatic & _)].
    exists s'. split; [exact Hu|]. apply Hstatic; vm_compute; reflexivity.
Defined.

(** ** C5: the two comparisons at their boundaries *)

(** C5.  For an instance of the modular variant whose threshold is [T]:
    with the recorded scroll offset at [T - 1] the below-threshold test
    holds and the evaluation leaves the scheme Static; with the offset at
    exactly [T] the test fails and the evaluation leaves a scheme other
    than Static; and when the available space equals the element's
    height exactly, the fit test holds, so that an evaluation at or past
    the threshold leaves the scheme Fixed. *)
Theorem update_boundaries (dom : Layout) (this : PositionSticky.t) (T : Z) :
  is_Some (PositionSticky._placeholder this) →
  PositionSticky._threshold this = Some T →
  (PositionSticky._isBelowThreshold
     (PositionSticky.set_latestKnownScrollY (T - 1) this) = true
   ∧ ∃ below,
       PositionSticky._update dom
         (PositionSticky.set_latestKnownScrollY (T - 1) this) = Some below
       ∧ PositionSticky._posScheme below = POS_SCHEME_STATIC)
  ∧ (PositionSticky._isBelowThreshold
       (PositionSticky.set_latestKnownScrollY T this) = false
     ∧ ∃ reached,
         PositionSticky._update dom
           (PositionSticky.set_latestKnownScrollY T this) = Some reached
         ∧ PositionSticky._posScheme reached ≠ POS_SCHEME_STATIC)
  ∧ (PositionSticky._getAvailableSpaceInContainer dom this
     = Sticky.boundingBoxHeight (PositionSticky._sticky this) →
     PositionSticky._canStickyFitInContainer dom this = true
     ∧ (PositionSticky._latestKnownScrollY this >= T →
        ∃ fitted,
          PositionSticky._update dom this = Some fitted
          ∧ PositionSticky._posScheme fitted = POS_SCHEME_FIXED)).
Proof.
  intros Hp HT.
  assert (Hp1 : ∀ y, is_Some (PositionSticky._placeholder
                                (PositionSticky.set_latestKnownScrollY y this)))
    by (intros; destruct this; exact Hp).
  assert (HT1 : ∀ y, PositionSticky._threshold
                       (PositionSticky.set_latestKnownScrollY y this) = Some T)
    by (intros; destruct this; exact HT).
  assert (Hy : ∀ y, PositionSticky._latestKnownScrollY
                      (PositionSticky.set_latestKnownScrollY y this) = y)
    by (intros; destruct this; reflexivity).
  split; [|split].
  - split.
    + unfold PositionSticky._isBelowThreshold. rewrite HT1, Hy. simpl.
      rewrite bool_decide_true by lia. reflexivity.
    + destruct (update_effect dom _ (Hp1 (T - 1))) as (m' & Hu & Hs & _).
      exists m'. split; [exact Hu|]. rewrite Hs, HT1, Hy. simpl.
      apply specScheme_static. lia.
  - split.
    + unfold PositionSticky._isBelowThreshold. rewrite HT1, Hy. simpl.
      rewrite bool_decide_false by lia. reflexivity.
    + destruct (update_effect dom _ (Hp1 T)) as (m' & Hu & Hs & _).
      exists m'. split; [exact Hu|]. rewrite Hs, HT1, Hy. simpl.
      unfold specScheme. rewrite bool_decide_false by lia.
      pose proof schemes_distinct as (? & ? & ?).
      case_bool_decide; congruence.
  - intros Hfit. split.
    + unfold PositionSticky._canStickyFitInContainer. rewrite Hfit.
      apply bool_decide_true. lia.
    + intros Hge.
      destruct (update_effect dom this Hp) as (m' & Hu & Hs & _).
      exists m'. split; [exact Hu|]. rewrite Hs, HT. simpl.
      apply specScheme_fixed; [lia|].
      unfold PositionSticky._getAvailableSpaceInContainer in Hfit. lia.
Qed.

Lemma update_boundaries_witness :
  is_Some (PositionSticky._placeholder sampleInstance)
  ∧ PositionSticky._threshold sampleInstance = Some 40
  ∧ (∃ below,
       PositionSticky._update (sampleLayout 39 125)
         (PositionSticky.set_latestKnownScrollY (40 - 1) sampleInstance)
       = Some below
       ∧ PositionSticky._posScheme below = POS_SCHEME_STATIC)
  ∧ (∃ reached,
       PositionSticky._update (sampleLayout 40 125)
         (PositionSticky.set_latestKnownScrollY 40 sampleInstance)
       = Some reached
       ∧ PositionSticky._posScheme reached ≠ POS_SCHEME_STATIC)
  ∧ PositionSticky._canStickyFitInContainer (sampleLayout 40 125) sampleInstance
    = true.
Proof.
  assert (Hp : is_Some (PositionSticky._placeholder sampleInstance))
    by (eexists; reflexivity).
  assert (HT : PositionSticky._threshold sampleInstance = Some 40)
    by reflexivity.
  split; [exact Hp|]. split; [exact HT|]. split; [|split].
  - exact (proj2 (proj1 (update_boundaries (sampleLayout 39 125)
                           sampleInstance 40 Hp HT))).
  - exact (proj2 (proj1 (proj2 (update_boundaries (sampleLayout 40 125)
                                  sampleInstance 40 Hp HT)))).
  - apply (proj2 (proj2 (update_boundaries (sampleLayout 40 125)
                           sampleInstance 40 Hp HT))).
    vm_compute. reflexivity.
Defined.

(** ** C7: evaluating twice *)

(** C7.  With the layout and the recorded scroll offset unchanged, a
    second evaluation returns the very instance the first one returned:
    every field is the same, and so are the styles of the sticky element
    and of the placeholder and the traces of their style assignments.
    This holds in both variants. *)
Theorem update_idempotent
    (dom : Layout) (m : PositionSticky.t) (s : Standalone.t) :
  is_Some (PositionSticky._placeholder m) →
  is_Some (Standalone.placeholder s) →
  (∃ m1, PositionSticky._update dom m = Some m1
         ∧ PositionSticky._update dom m1 = Some m1)
  ∧ (∃ s1, Standalone.update dom s = Some s1
           ∧ Standalone.update dom s1 = Some s1).
Proof.
  intros Hm Hs. split.
  - destruct (update_effect dom m Hm) as (m1 & Hu & Hscheme & _ & Htick & Hp1).
    exists m1. split; [exact Hu|].
    destruct (update_frame dom m m1 Hu) as (Hth & Hy & Htop & Hbot & Hh & _).
    destruct (update_effect dom m1 Hp1) as (m2 & Hu2 & Hscheme2 & Hsame & _).
    rewrite Hth, Hy, Htop, Hbot, Hh, <- Hscheme in Hscheme2.
    rewrite Hu2, (Hsame Hscheme2). f_equal.
    by apply set_isTicking_same.
  - destruct (standalone_update_effect dom s Hs)
      as (s1 & Hu & Hscheme & _ & Htick & Hp1).
    exists s1. split; [exact Hu|].
    destruct (standalone_update_frame dom s s1 Hu) as (Hth & Hy & Htop & Hbot).
    destruct (standalone_update_effect dom s1 Hp1)
      as (s2 & Hu2 & Hscheme2 & Hsame & _).
    rewrite Hth, Hy, Htop, Hbot, <- Hscheme in Hscheme2.
    rewrite Hu2, (Hsame Hscheme2). f_equal.
    by apply standalone_set_isTicking_same.
Qed.

Lemma update_idempotent_witness :
  is_Some (PositionSticky._placeholder sampleScrolled)
  ∧ is_Some (Standalone.placeholder sampleStandalone)
  ∧ (∃ m1, PositionSticky._update (sampleLayout 60 580) sampleScrolled = Some m1
           ∧ PositionSticky._update (sampleLayout 60 580) m1 = Some m1)
  ∧ (∃ s1, Standalone.update (sampleLayout 60 580) sampleStandalone = Some s1
           ∧ Standalone.update (sampleLayout 60 580) s1 = Some s1).
Proof.
  assert (Hm : is_Some (PositionSticky._placeholder sampleScrolled))
    by (eexists; reflexivity).
  assert (Hs : is_Some (Standalone.placeholder sampleStandalone))
    by (eexists; reflexivity).
  split; [exact Hm|]. split; [exact Hs|].
  exact (update_idempotent (sampleLayout 60 580) sampleScrolled
           sampleStandalone Hm Hs).
Defined.

(** ** C8: the scheme invariant *)

Section Invariant.

Import PositionSticky.

Lemma visible_display (v : string) (p : Placeholder.t) :
  Placeholder.visible (Placeholder.with_element (setProperty "display" v) p)
  = negb (bool_decide (v = "none")).
Proof.
  unfold Placeholder.visible. simpl. rewrite lookup_insert_eq.
  f_equal. apply bool_decide_ext. split; congruence.
Qed.

Lemma visible_resize (sticky : Sticky.t) (p : Placeholder.t) :
  Placeholder.visible (Placeholder.with_element (Placeholder.resize sticky) p)
  = Placeholder.visible p.
Proof.
  unfold Placeholder.visible. simpl.
  rewrite !lookup_insert_ne by done. reflexivity.
Qed.

Lemma makeStatic_invariant (this : t) :
  is_Some (_placeholder this) →
  ∃ this', _makeStatic this = Some this' ∧ schemeInvariant this'.
Proof.
  intros [p Hp]. unfold _makeStatic. destruct this; simpl in *; subst. simpl.
  eexists; split; [reflexivity|]. split; [exact I|].
  eexists; split; [reflexivity|]. by rewrite visible_display.
Qed.

Lemma makeFixed_invariant (this : t) :
  is_Some (_placeholder this) →
  ∃ this', _makeFixed this = Some this' ∧ schemeInvariant this'.
Proof.
  intros [p Hp]. unfold _makeFixed. destruct this; simpl in *; subst. simpl.
  eexists; split; [reflexivity|]. split; [exact I|].
  eexists; split; [reflexivity|]. by rewrite visible_display.
Qed.

Lemma makeAbsolute_invariant (this : t) :
  is_Some (_placeholder this) →
  ∃ this', _makeAbsolute this = Some this' ∧ schemeInvariant this'.
Proof.
  intros [p Hp]. unfold _makeAbsolute. destruct this; simpl in *; subst. simpl.
  eexists; split; [reflexivity|]. split; [exact I|].
  eexists; split; [reflexivity|]. by rewrite visible_display.
Qed.

Lemma schemeInvariant_placeholder (this : t) :
  schemeInvariant this → is_Some (_placeholder this).
Proof. intros (_ & p & Hp & _). by exists p. Qed.

Lemma update_invariant (dom : Layout) (this : t) :
  schemeInvariant this →
  ∃ this', _update dom this = Some this' ∧ schemeInvariant this'.
Proof.
  intros Hinv.
  assert (Hinv0 : schemeInvariant (set_isTicking false this))
    by (destruct this; exact Hinv).
  pose proof (schemeInvariant_placeholder _ Hinv0) as Hp0.
  unfold _update.
  destruct (_isBelowThreshold _); [|destruct (_canStickyFitInContainer _ _)].
  - destruct (_isStatic _); simpl; eauto using makeStatic_invariant.
  - destruct (_isFixed _); simpl; eauto using makeFixed_invariant.
  - destruct (_isAbsolute _); simpl; eauto using makeAbsolute_invariant.
Qed.

Lemma onScroll_invariant (dom : Layout) (this : t) :
  schemeInvariant this → schemeInvariant (_onScroll dom this).1.
Proof.
  intros Hinv. unfold _onScroll.
  destruct (_isTicking this) eqn:Ht; simpl; [exact Hinv|].
  destruct this; exact Hinv.
Qed.

Lemma refresh_invariant (dom : Layout) (this : t) :
  schemeInvariant this →
  ∃ this', refresh dom this = Some this' ∧ schemeInvariant this'.
Proof.
  intros (Hone & p & Hp & Hvis).
  unfold refresh, _calcThreshold, _getStickyDistanceFromDocumentTop.
  destruct this; simpl in *; subst. unfold inOneScheme in Hone.
  unfold schemeInvariant, inOneScheme.
  destruct (_isStatic _) eqn:Hs; simpl in *;
    (eexists; split; [reflexivity|]); simpl;
    unfold _isStatic in *; simpl in *; rewrite Hs;
    (split; [exact Hone|]);
    (eexists; split; [reflexivity|]);
    unfold Placeholder.refresh; by rewrite visible_resize.
Qed.

(** The instance [create] builds, field by field. *)
Lemma create_shape (dom : Layout) (el : HTMLElement)
    (opts : option Options) (created : t * ScrollListener) :
  create dom el opts = Some created →
  ∃ parent,
    parentNode el = Some parent
    ∧ created =
      (let top :=
         default (cs_borderTopWidth (containerBox dom)
                  + cs_paddingTop (containerBox dom))
           (offsetTopOption (default emptyOptions opts)) in
       {| _sticky := Sticky.create dom el;
          _container := Container.create dom parent;
          _placeholder := Some (Placeholder.create (Sticky.create dom el));
          _posScheme := POS_SCHEME_STATIC;
          _isTicking := false;
          _threshold :=
            Some (pageYOffset dom + rect_top (stickyRect dom) - top);
          _options := default emptyOptions opts;
          _leftPositionWhenAbsolute :=
            Some (stickyOffsetLeft dom - stickyMarginLeft dom);
          _leftPositionWhenFixed :=
            Some (pageXOffset dom + rect_left (stickyRect dom)
                  - stickyMarginLeft dom);
          _latestKnownScrollY := pageYOffset dom;
          offsetTop := top;
          offsetBottom :=
            cs_borderBottomWidth (containerBox dom)
            + cs_paddingBottom (containerBox dom) |},
       OnScrollListener).
Proof.
  unfold create, _init.
  destruct (parentNode el) as [parent|]; simpl; [|discriminate].
  unfold _setOffsetTop. simpl.
  destruct (offsetTopOption (default emptyOptions opts)); simpl;
    intros [= <-]; exists parent; split; reflexivity.
Qed.

Lemma create_invariant (dom : Layout) (el : HTMLElement)
    (opts : option Options) (created : t * ScrollListener) :
  create dom el opts = Some created → schemeInvariant created.1.
Proof.
  intros Hc. destruct (create_shape _ _ _ _ Hc) as (parent & _ & ->).
  simpl. split; [exact I|].
  eexists; split; [reflexivity|].
  unfold Placeholder.create.
  change {| Placeholder.element :=
              Placeholder.resize ?s (setProperty "display" "none" ?e) |}
    with (Placeholder.with_element (Placeholder.resize s)
            (Placeholder.with_element (setProperty "display" "none")
               {| Placeholder.element := e |})).
  by rewrite visible_resize, visible_display.
Qed.

End Invariant.

Lemma dispatchScroll_invariant (dom : Layout) (ls : list ScrollListener)
    (h : ModularHost) :
  schemeInvariant (instance h) →
  schemeInvariant
    (instance (dispatchScroll PositionSticky.t PositionSticky._onScroll dom ls h)).
Proof.
  revert h. induction ls as [|[] ls IH]; intros h Hinv; simpl; [exact Hinv|].
  pose proof (onScroll_invariant dom (instance h) Hinv) as Hnext.
  destruct (PositionSticky._onScroll dom (instance h)) as [this scheduled].
  apply IH. exact Hnext.
Qed.

Lemma runCallbacks_invariant (dom : Layout) (cbs : list FrameCallback)
    (h : ModularHost) :
  schemeInvariant (instance h) →
  ∃ h', runCallbacks PositionSticky.t PositionSticky._update
          PositionSticky._latestKnownScrollY dom cbs h = Some h'
        ∧ schemeInvariant (instance h').
Proof.
  revert h. induction cbs as [|[] cbs IH]; intros h Hinv; simpl; [eauto|].
  destruct (update_invariant dom (instance h) Hinv) as (this' & -> & Hinv').
  simpl. apply IH. exact Hinv'.
Qed.

Lemma act_invariant (a : Action) (h : ModularHost) :
  schemeInvariant (instance h) →
  ∃ h', act a h = Some h' ∧ schemeInvariant (instance h').
Proof.
  intros Hinv. destruct a as [[dom|dom]|dom]; simpl.
  - eexists; split; [reflexivity|]. by apply dispatchScroll_invariant.
  - by apply runCallbacks_invariant.
  - destruct (refresh_invariant dom (instance h) Hinv) as (this' & -> & Hinv').
    simpl. eauto.
Qed.

Lemma perform_invariant (actions : list Action) (h : ModularHost) :
  schemeInvariant (instance h) →
  ∃ h', perform actions h = Some h' ∧ schemeInvariant (instance h').
Proof.
  revert h. induction actions as [|a actions IH]; intros h Hinv; simpl; [eauto|].
  destruct (act_invariant a h Hinv) as (h1 & -> & Hinv1). simpl.
  by apply IH.
Qed.

(** C8.  In the modular variant, an instance that [create] returned
    satisfies the scheme invariant: exactly one of the three scheme tests
    holds and the placeholder is displayed exactly when the scheme is not
    Static.  Every sequence of scroll notifications, animation frames and
    calls of [refresh] runs to completion and ends in an instance that
    satisfies it again; and each of the three transitions, applied to an
    instance that has its placeholder, returns an instance that satisfies
    it. *)
Theorem scheme_invariant_preserved
    (dom : Layout) (el : HTMLElement) (opts : option Options)
    (created : PositionSticky.t * ScrollListener) :
  PositionSticky.create dom el opts = Some created →
  schemeInvariant created.1
  ∧ (∀ actions : list Action,
       ∃ h, perform actions (boot created) = Some h
            ∧ schemeInvariant (instance h))
  ∧ (∀ this : PositionSticky.t,
       is_Some (PositionSticky._placeholder this) →
       (∃ this', PositionSticky._makeStatic this = Some this'
                 ∧ schemeInvariant this')
       ∧ (∃ this', PositionSticky._makeFixed this = Some this'
                   ∧ schemeInvariant this')
       ∧ (∃ this', PositionSticky._makeAbsolute this = Some this'
                   ∧ schemeInvariant this')).
Proof.
  intros Hcreate.
  pose proof (create_invariant dom el opts created Hcreate) as Hinit.
  split; [exact Hinit|]. split.
  - intros actions. apply perform_invariant. exact Hinit.
  - intros this Hp.
    auto using makeStatic_invariant, makeFixed_invariant, makeAbsolute_invariant.
Qed.

Lemma scheme_invariant_preserved_witness :
  PositionSticky.create (sampleLayout 0 640) sampleElement None
  = Some (sampleInstance, OnScrollListener)
  ∧ ∃ h, perform [Notify (ScrollEvent (sampleLayout 60 580));
                  Notify (AnimationFrame (sampleLayout 60 580));
                  CallRefresh (sampleLayout 60 580);
                  Notify (ScrollEvent (sampleLayout 700 85));
                  Notify (AnimationFrame (sampleLayout 700 85))]
             (boot (sampleInstance, OnScrollListener)) = Some h
         ∧ schemeInvariant (instance h).
Proof.
  assert (Hc : PositionSticky.create (sampleLayout 0 640) sampleElement None
               = Some (sampleInstance, OnScrollListener))
    by (vm_compute; reflexivity).
  split; [exact Hc|].
  exact (proj1 (proj2 (scheme_invariant_preserved (sampleLayout 0 640)
                         sampleElement None (sampleInstance, OnScrollListener)
                         Hc)) _).
Defined.

(** ** C3: scroll notifications between two frames *)

Section ModularDebounce.

Import PositionSticky.

Lemma modular_run_cons (e : Event) (es : list Event) (h : ModularHost) :
  modular_run (e :: es) h = modular_step e h ≫= modular_run es.
Proof. reflexivity. Qed.

Lemma modular_first_scroll (d : Layout) (h : ModularHost) :
  listeners h = [OnScrollListener] →
  _isTicking (instance h) = false →
  modular_step (ScrollEvent d) h
  = Some {| instance :=
              set_isTicking true
                (set_latestKnownScrollY (pageYOffset d) (instance h));
            listeners := listeners h;
            frameQueue := frameQueue h ++ [UpdateCallback];
            evaluations := evaluations h |}.
Proof.
  intros Hl Ht. destruct h as [this ls queue trace]; simpl in *; subst.
  unfold modular_step, step. simpl.
  unfold _onScroll. rewrite Ht. reflexivity.
Qed.

Lemma modular_ignored_scroll (d : Layout) (h : ModularHost) :
  listeners h = [OnScrollListener] →
  _isTicking (instance h) = true →
  modular_step (ScrollEvent d) h = Some h.
Proof.
  intros Hl Ht. destruct h as [this ls queue trace]; simpl in *; subst.
  unfold modular_step, step. simpl.
  unfold _onScroll. rewrite Ht. simpl. rewrite app_nil_r. reflexivity.
Qed.

Lemma modular_ignored_scrolls (ds : list Layout) (rest : list Event)
    (h : ModularHost) :
  listeners h = [OnScrollListener] →
  _isTicking (instance h) = true →
  modular_run ((ScrollEvent <$> ds) ++ rest) h = modular_run rest h.
Proof.
  intros Hl Ht. induction ds as [|d ds IH]; [reflexivity|].
  rewrite fmap_cons, <- app_comm_cons, modular_run_cons.
  rewrite modular_ignored_scroll by assumption. exact IH.
Qed.

Lemma modular_debounce (h : ModularHost) (first : Layout)
    (later : list Layout) (frame : Layout) :
  idleModular h →
  ∃ h',
    modular_run
      (ScrollEvent first :: (ScrollEvent <$> later) ++ [AnimationFrame frame])
      h = Some h'
    ∧ evaluations h' = evaluations h ++ [pageYOffset first]
    ∧ idleModular h'.
Proof.
  intros (Hp & Hl & Hq & Ht).
  set (this1 := set_isTicking true
                  (set_latestKnownScrollY (pageYOffset first) (instance h))).
  assert (Hp1 : is_Some (_placeholder this1))
    by (subst this1; destruct (instance h); exact Hp).
  assert (Ht1 : _isTicking this1 = true)
    by (subst this1; destruct (instance h); reflexivity).
  destruct (update_effect frame this1 Hp1)
    as (this2 & Hu & _ & _ & Ht2 & Hp2).
  rewrite modular_run_cons, (modular_first_scroll first h Hl Ht). simpl.
  fold this1.
  rewrite modular_ignored_scrolls by (simpl; assumption).
  rewrite modular_run_cons. unfold modular_step, step. simpl.
  rewrite Hq. simpl. rewrite Hu. simpl.
  eexists; split; [reflexivity|]. simpl.
  repeat split; assumption.
Qed.

End ModularDebounce.

Section StandaloneDebounce.

Import Standalone.

Lemma standalone_run_cons (e : Event) (es : list Event) (g : StandaloneHost) :
  standalone_run (e :: es) g
  = step t onScroll update latestKnownScrollY e g ≫= standalone_run es.
Proof. reflexivity. Qed.

Lemma standalone_first_scroll (d : Layout) (g : StandaloneHost) :
  listeners g = [OnScrollListener] →
  isTicking (instance g) = false →
  step t onScroll update latestKnownScrollY (ScrollEvent d) g
  = Some {| instance :=
              set_isTicking true
                (set_latestKnownScrollY (pageYOffset d) (instance g));
            listeners := listeners g;
            frameQueue := frameQueue g ++ [UpdateCallback];
            evaluations := evaluations g |}.
Proof.
  intros Hl Ht. destruct g as [this ls queue trace]; simpl in *; subst.
  unfold step. simpl.
  unfold onScroll. rewrite Ht. reflexivity.
Qed.

Lemma standalone_ignored_scroll (d : Layout) (g : StandaloneHost) :
  listeners g = [OnScrollListener] →
  isTicking (instance g) = true →
  step t onScroll update latestKnownScrollY (ScrollEvent d) g = Some g.
Proof.
  intros Hl Ht. destruct g as [this ls queue trace]; simpl in *; subst.
  unfold step. simpl.
  unfold onScroll. rewrite Ht. simpl. rewrite app_nil_r. reflexivity.
Qed.

Lemma standalone_ignored_scrolls (ds : list Layout) (rest : list Event)
    (g : StandaloneHost) :
  listeners g = [OnScrollListener] →
  isTicking (instance g) = true →
  standalone_run ((ScrollEvent <$> ds) ++ rest) g = standalone_run rest g.
Proof.
  intros Hl Ht. induction ds as [|d ds IH]; [reflexivity|].
  rewrite fmap_cons, <- app_comm_cons, standalone_run_cons.
  rewrite standalone_ignored_scroll by assumption. exact IH.
Qed.

Lemma standalone_debounce (g : StandaloneHost) (first : Layout)
    (later : list Layout) (frame : Layout) :
  idleStandalone g →
  ∃ g',
    standalone_run
      (ScrollEvent first :: (ScrollEvent <$> later) ++ [AnimationFrame frame])
      g = Some g'
    ∧ evaluations g' = evaluations g ++ [pageYOffset first]
    ∧ idleStandalone g'.
Proof.
  intros (Hp & Hl & Hq & Ht).
  set (this1 := set_isTicking true
                  (set_latestKnownScrollY (pageYOffset first) (instance g))).
  assert (Hp1 : is_Some (placeholder this1))
    by (subst this1; destruct (instance g); exact Hp).
  assert (Ht1 : isTicking this1 = true)
    by (subst this1; destruct (instance g); reflexivity).
  destruct (standalone_update_effect frame this1 Hp1)
    as (this2 & Hu & _ & _ & Ht2 & Hp2).
  rewrite standalone_run_cons, (standalone_first_scroll first g Hl Ht). simpl.
  fold this1.
  rewrite standalone_ignored_scrolls by (simpl; assumption).
  rewrite standalone_run_cons. unfold step. simpl.
  rewrite Hq. simpl. rewrite Hu. simpl.
  eexists; split; [reflexivity|]. simpl.
  repeat split; assumption.
Qed.

End StandaloneDebounce.

(** C3, as the code has it.  Start from a host with one subscribed
    instance, no frame requested and the pending flag clear.  Let N >= 1
    scroll notifications arrive (a first one and any number of later
    ones) and then let the animation frame fire.  The run completes; the
    trace of evaluations has grown by exactly one entry; the scroll
    offset of that evaluation is the page offset at the FIRST of the
    notifications, the one that requested the frame, whatever the later
    ones reported; and the host is idle again.  This holds in both
    variants. *)
Theorem debounce_uses_first_offset
    (h : ModularHost) (g : StandaloneHost)
    (first : Layout) (later : list Layout) (frame : Layout) :
  idleModular h →
  idleStandalone g →
  (∃ h',
     modular_run
       (ScrollEvent first :: (ScrollEvent <$> later) ++ [AnimationFrame frame])
       h = Some h'
     ∧ evaluations h' = evaluations h ++ [pageYOffset first]
     ∧ idleModular h')
  ∧ (∃ g',
       standalone_run
         (ScrollEvent first :: (ScrollEvent <$> later) ++ [AnimationFrame frame])
         g = Some g'
       ∧ evaluations g' = evaluations g ++ [pageYOffset first]
       ∧ idleStandalone g').
Proof.
  intros Hh Hg. split.
  - by apply modular_debounce.
  - by apply standalone_debounce.
Qed.

Lemma debounce_uses_first_offset_witness :
  idleModular (boot (sampleInstance, OnScrollListener))
  ∧ idleStandalone (boot (sampleStandalone, OnScrollListener))
  ∧ ∃ h',
      modular_run
        [ScrollEvent (sampleLayout 60 580); ScrollEvent (sampleLayout 70 570);
         AnimationFrame (sampleLayout 70 570)]
        (boot (sampleInstance, OnScrollListener)) = Some h'
      ∧ evaluations h' = [60].
Proof.
  assert (Hh : idleModular (boot (sampleInstance, OnScrollListener)))
    by (repeat split; eexists; reflexivity).
  assert (Hg : idleStandalone (boot (sampleStandalone, OnScrollListener)))
    by (repeat split; eexists; reflexivity).
  split; [exact Hh|]. split; [exact Hg|].
  destruct (debounce_uses_first_offset _ _ (sampleLayout 60 580)
              [sampleLayout 70 570] (sampleLayout 70 570) Hh Hg)
    as [(h' & Hrun & Hev & _) _].
  exists h'. split; [exact Hrun | exact Hev].
Defined.

(** The claim as worded fails on the sample page: two notifications, at
    offsets 60 and 70, are followed by a frame, and the evaluation is
    made with 60. *)
Lemma debounce_most_recent_counterexample :
  ¬ evaluatesMostRecentOffset (boot (sampleInstance, OnScrollListener))
      (sampleLayout 60 580) [sampleLayout 70 570] (sampleLayout 70 570).
Proof.
  intros (h' & Hrun & Hev).
  vm_compute in Hrun. injection Hrun as <-.
  vm_compute in Hev. discriminate Hev.
Qed.

(** ** C2: the threshold *)

Lemma offsetParentLoop_sum :
  ∀ (b : OffsetBox) (total : Z),
    Standalone.offsetParentLoop total b = total + offsetParentChainSum b.
Proof.
  fix IH 1. intros [top [parent|]] total; simpl.
  - rewrite IH. lia.
  - lia.
Qed.

Lemma standalone_create_threshold (dom : Layout) (el : HTMLElement)
    (opts : option Options) (created : Standalone.t * ScrollListener) :
  Standalone.create dom el opts = Some created →
  Standalone.latestKnownScrollY created.1 = pageYOffset dom
  ∧ Standalone.threshold created.1
    = Some (Standalone.getElementDistanceFromDocumentTop dom created.1
            - Standalone.offsetTop created.1).
Proof.
  unfold Standalone.create, Standalone.init.
  destruct (parentNode el) as [parent|]; simpl; [|discriminate].
  unfold Standalone.validateContainerPosScheme, Standalone.setOffsetTop. simpl.
  destruct (_ && _); destruct (offsetTopOption _); simpl;
    intros [= <-]; simpl; split; reflexivity.
Qed.

(** C2, as the code has it.  In the modular variant the threshold is the
    recorded scroll offset plus the viewport-relative top of the measured
    node, minus [offsetTop], whether the scroll offset is zero or not:
    at initialisation the recorded offset is the page offset and the node
    is the element; on [refresh] the node is the element while the scheme
    is Static and the placeholder otherwise.  The offset-parent chain is
    walked only by the stand-alone variant, and there when the recorded
    scroll offset is NOT zero; at exactly zero that variant takes the
    element's viewport-relative top. *)
Theorem threshold_as_computed
    (dom : Layout) (el : HTMLElement) (opts : option Options)
    (created : PositionSticky.t * ScrollListener)
    (m : PositionSticky.t) (s : Standalone.t) :
  PositionSticky.create dom el opts = Some created →
  is_Some (PositionSticky._placeholder m) →
  PositionSticky._threshold created.1
  = Some (pageYOffset dom + rect_top (stickyRect dom)
          - PositionSticky.offsetTop created.1)
  ∧ (∃ m',
       PositionSticky.refresh dom m = Some m'
       ∧ PositionSticky._threshold m'
         = Some (PositionSticky._latestKnownScrollY m
                 + rect_top (if PositionSticky._isStatic m
                             then stickyRect dom else placeholderRect dom)
                 - PositionSticky.offsetTop m))
  ∧ Standalone.threshold (Standalone.calcThreshold dom s)
    = Some ((if bool_decide (Standalone.latestKnownScrollY s = 0)
             then rect_top (stickyRect dom)
             else offsetParentChainSum (stickyOffsets dom))
            - Standalone.offsetTop s)
  ∧ (∀ created' : Standalone.t * ScrollListener,
       Standalone.create dom el opts = Some created' →
       Standalone.threshold created'.1
       = Some ((if bool_decide (pageYOffset dom = 0)
                then rect_top (stickyRect dom)
                else offsetParentChainSum (stickyOffsets dom))
               - Standalone.offsetTop created'.1)).
Proof.
  intros Hc [p Hp]. split; [|split; [|split]].
  - destruct (create_shape _ _ _ _ Hc) as (parent & _ & ->). reflexivity.
  - unfold PositionSticky.refresh, PositionSticky._calcThreshold,
      PositionSticky._getStickyDistanceFromDocumentTop.
    destruct m; simpl in *; subst.
    destruct (PositionSticky._isStatic _); simpl;
      eexists; split; reflexivity.
  - unfold Standalone.calcThreshold, Standalone.getElementDistanceFromDocumentTop.
    destruct s; simpl. rewrite offsetParentLoop_sum.
    case_bool_decide; do 2 f_equal; lia.
  - intros created' Hc'.
    destruct (standalone_create_threshold _ _ _ _ Hc') as (Hy & ->).
    unfold Standalone.getElementDistanceFromDocumentTop.
    rewrite Hy, offsetParentLoop_sum.
    case_bool_decide; do 2 f_equal; lia.
Qed.

Lemma threshold_as_computed_witness :
  PositionSticky.create (sampleLayout 0 640) sampleElement None
  = Some (sampleInstance, OnScrollListener)
  ∧ is_Some (PositionSticky._placeholder sampleScrolled)
  ∧ PositionSticky._threshold sampleInstance = Some (0 + 50 - 10)
  ∧ Standalone.threshold
      (Standalone.calcThreshold (sampleLayout 0 640) sampleStandalone)
    = Some (50 - 10).
Proof.
  assert (Hc : PositionSticky.create (sampleLayout 0 640) sampleElement None
               = Some (sampleInstance, OnScrollListener))
    by (vm_compute; reflexivity).
  assert (Hp : is_Some (PositionSticky._placeholder sampleScrolled))
    by (eexists; reflexivity).
  split; [exact Hc|]. split; [exact Hp|].
  destruct (threshold_as_computed (sampleLayout 0 640) sampleElement None
              (sampleInstance, OnScrollListener) sampleScrolled
              sampleStandalone Hc Hp) as (Hinit & _ & Hs & _).
  split; [exact Hinit | exact Hs].
Defined.

(** The claim as worded fails twice on the sample page, where the
    offset-parent chain sums to 45 while the element sits 50 below the
    top of the document.  Created at scroll offset 0, the modular variant
    sets the threshold to 0 + 50 - 10 and not to 45 - 10; created at
    scroll offset 60, the stand-alone variant sets it to 45 - 10 and not
    to 60 + (-10) - 10. *)
Lemma threshold_as_specified_counterexample :
  (∃ m, fst <$> PositionSticky.create (sampleLayout 0 640) sampleElement None
        = Some m
        ∧ ¬ thresholdAsSpecified (sampleLayout 0 640)
              (pageYOffset (sampleLayout 0 640))
              (PositionSticky.offsetTop m) (PositionSticky._threshold m))
  ∧ (∃ s, fst <$> Standalone.create (sampleLayout 60 580) sampleElement None
          = Some s
          ∧ ¬ thresholdAsSpecified (sampleLayout 60 580)
                (pageYOffset (sampleLayout 60 580))
                (Standalone.offsetTop s) (Standalone.threshold s)).
Proof.
  split.
  - exists sampleInstance. split; [vm_compute; reflexivity|].
    vm_compute. discriminate.
  - eexists. split; [vm_compute; reflexivity|].
    vm_compute. discriminate.
Qed.

(** ** C4 and C6: what the transitions write *)

Section Transitions.

Import PositionSticky.

Lemma makeStatic_effect (this : t) (p : Placeholder.t) :
  _placeholder this = Some p →
  ∃ this',
    _makeStatic this = Some this'
    ∧ _posScheme this' = POS_SCHEME_STATIC
    ∧ style (Sticky.element (_sticky this'))
      = <["position" := "static"]> (style (Sticky.element (_sticky this)))
    ∧ styleWrites (Sticky.element (_sticky this'))
      = styleWrites (Sticky.element (_sticky this))
        ++ [SetStyle "position" "static"]
    ∧ _placeholder this'
      = Some (Placeholder.with_element (setProperty "display" "none") p).
Proof.
  intros Hp. unfold _makeStatic. destruct this; simpl in *; subst. simpl.
  eexists; repeat split; reflexivity.
Qed.

Lemma makeFixed_effect (this : t) (p : Placeholder.t) :
  _placeholder this = Some p →
  ∃ this',
    _makeFixed this = Some this'
    ∧ _posScheme this' = POS_SCHEME_FIXED
    ∧ style (Sticky.element (_sticky this'))
      = <["left" := px_nullable (_leftPositionWhenFixed this)]>
          (<["top" := px (offsetTop this)]>
             (<["position" := "fixed"]>
                (delete "bottom" (style (Sticky.element (_sticky this))))))
    ∧ styleWrites (Sticky.element (_sticky this'))
      = styleWrites (Sticky.element (_sticky this))
        ++ [ClearStyle "bottom"; SetStyle "position" "fixed";
            SetStyle "top" (px (offsetTop this));
            SetStyle "left" (px_nullable (_leftPositionWhenFixed this))]
    ∧ _placeholder this'
      = Some (Placeholder.with_element (setProperty "display" "block") p).
Proof.
  intros Hp. unfold _makeFixed. destruct this; simpl in *; subst. simpl.
  eexists; repeat split; try reflexivity.
  simpl. rewrite <- !app_assoc. reflexivity.
Qed.

Lemma makeAbsolute_effect (this : t) (p : Placeholder.t) :
  _placeholder this = Some p →
  ∃ this',
    _makeAbsolute this = Some this'
    ∧ _posScheme this' = POS_SCHEME_ABSOLUTE
    ∧ style (Sticky.element (_sticky this'))
      = <["left" := px_nullable (_leftPositionWhenAbsolute this)]>
          (<["bottom" := px (Container.paddingBottom (_container this))]>
             (<["position" := "absolute"]>
                (delete "top" (style (Sticky.element (_sticky this))))))
    ∧ styleWrites (Sticky.element (_sticky this'))
      = styleWrites (Sticky.element (_sticky this))
        ++ [ClearStyle "top"; SetStyle "position" "absolute";
            SetStyle "bottom" (px (Container.paddingBottom (_container this)));
            SetStyle "left" (px_nullable (_leftPositionWhenAbsolute this))]
    ∧ _placeholder this'
      = Some (Placeholder.with_element (setProperty "display" "block") p).
Proof.
  intros Hp. unfold _makeAbsolute. destruct this; simpl in *; subst. simpl.
  eexists; repeat split; try reflexivity.
  simpl. rewrite <- !app_assoc. reflexivity.
Qed.

End Transitions.


(** C6, as the code has it.  Applied to an instance that has its
    placeholder, the transition to Fixed first clears [bottom] and then
    sets [position], [top] and [left]; the transition to Absolute first
    clears [top] and then sets [position], [bottom] and [left]; after
    either, no property belonging only to the other schemes is left on
    the element.  The transition to Static makes one assignment,
    [position: static]: whatever [top], [bottom] and [left] the element
    carried stay on it. *)
Theorem transitions_clear_foreign_offsets (this : PositionSticky.t) :
  is_Some (PositionSticky._placeholder this) →
  (∃ f,
     PositionSticky._makeFixed this = Some f
     ∧ clearsOtherSchemes POS_SCHEME_FIXED
         (Sticky.element (PositionSticky._sticky f))
     ∧ ∃ own,
         styleWrites (Sticky.element (PositionSticky._sticky f))
         = styleWrites (Sticky.element (PositionSticky._sticky this))
           ++ (ClearStyle "bottom" :: own)
         ∧ (ClearStyle "top" ∉ own) ∧ (ClearStyle "bottom" ∉ own))
  ∧ (∃ a,
       PositionSticky._makeAbsolute this = Some a
       ∧ clearsOtherSchemes POS_SCHEME_ABSOLUTE
           (Sticky.element (PositionSticky._sticky a))
       ∧ ∃ own,
           styleWrites (Sticky.element (PositionSticky._sticky a))
           = styleWrites (Sticky.element (PositionSticky._sticky this))
             ++ (ClearStyle "top" :: own)
           ∧ (ClearStyle "top" ∉ own) ∧ (ClearStyle "bottom" ∉ own))
  ∧ (∃ s,
       PositionSticky._makeStatic this = Some s
       ∧ styleWrites (Sticky.element (PositionSticky._sticky s))
         = styleWrites (Sticky.element (PositionSticky._sticky this))
           ++ [SetStyle "position" "static"]
       ∧ ∀ k, k ≠ "position" →
              style (Sticky.element (PositionSticky._sticky s)) !! k
              = style (Sticky.element (PositionSticky._sticky this)) !! k).
Proof.
  intros [p Hp]. split; [|split].
  - destruct (makeFixed_effect this p Hp) as (f & Hf & _ & Hstyle & Hw & _).
    exists f. split; [exact Hf|]. split.
    + intros k Hk. rewrite Hstyle.
      assert (k = "bottom") as ->.
      { revert Hk. vm_compute. intros Hk.
        repeat (apply elem_of_cons in Hk as [->|Hk]; [reflexivity|]).
        by apply elem_of_nil in Hk. }
      rewrite !lookup_insert_ne by done. apply lookup_delete_eq.
    + eexists. split; [exact Hw|].
      split; intros Hin;
        repeat (apply elem_of_cons in Hin as [Hin|Hin]; [discriminate|]);
        by apply elem_of_nil in Hin.
  - destruct (makeAbsolute_effect this p Hp) as (a & Ha & _ & Hstyle & Hw & _).
    exists a. split; [exact Ha|]. split.
    + intros k Hk. rewrite Hstyle.
      assert (k = "top") as ->.
      { revert Hk. vm_compute. intros Hk.
        repeat (apply elem_of_cons in Hk as [->|Hk]; [reflexivity|]).
        by apply elem_of_nil in Hk. }
      rewrite !lookup_insert_ne by done. apply lookup_delete_eq.
    + eexists. split; [exact Hw|].
      split; intros Hin;
        repeat (apply elem_of_cons in Hin as [Hin|Hin]; [discriminate|]);
        by apply elem_of_nil in Hin.
  - destruct (makeStatic_effect this p Hp) as (s & Hs & _ & Hstyle & Hw & _).
    exists s. split; [exact Hs|]. split; [exact Hw|].
    intros k Hk. rewrite Hstyle. by rewrite lookup_insert_ne.
Qed.

Lemma transitions_clear_foreign_offsets_witness :
  is_Some (PositionSticky._placeholder sampleInstance)
  ∧ ∃ f, PositionSticky._makeFixed sampleInstance = Some f
         ∧ clearsOtherSchemes POS_SCHEME_FIXED
             (Sticky.element (PositionSticky._sticky f)).
Proof.
  assert (Hp : is_Some (PositionSticky._placeholder sampleInstance))
    by (eexists; reflexivity).
  split; [exact Hp|].
  destruct (transitions_clear_foreign_offsets sampleInstance Hp)
    as ((f & Hf & Hclear & _) & _).
  exists f. split; [exact Hf | exact Hclear].
Defined.

(** The claim as worded fails for the transition to Static: made Fixed
    and then Static, the sample element still carries the [top] and the
    [left] that the Fixed scheme gave it. *)
Lemma makeStatic_keeps_offsets_counterexample :
  ∃ s, PositionSticky._makeStatic sampleFixed = Some s
       ∧ style (Sticky.element (PositionSticky._sticky s)) !! "top"
         = Some "10px"
       ∧ style (Sticky.element (PositionSticky._sticky s)) !! "left"
         = Some "16px"
       ∧ ¬ clearsOtherSchemes POS_SCHEME_STATIC
             (Sticky.element (PositionSticky._sticky s)).
Proof.
  eexists. split; [vm_compute; reflexivity|].
  split; [vm_compute; reflexivity|]. split; [vm_compute; reflexivity|].
  intros Hclear. specialize (Hclear "top").
  assert (Hin : "top" ∈ otherSchemesProperties POS_SCHEME_STATIC)
    by (vm_compute; apply elem_of_cons; left; reflexivity).
  specialize (Hclear Hin). vm_compute in Hclear. discriminate Hclear.
Qed.

(** ** C9 and C10: [refresh] *)

Section Refresh.

Import PositionSticky.

(** Everything [refresh] does, field by field. *)
Lemma refresh_effect (dom : Layout) (this : t) (p : Placeholder.t) :
  _placeholder this = Some p →
  ∃ this',
    refresh dom this = Some this'
    ∧ _threshold this'
      = Some (_latestKnownScrollY this
              + rect_top (if _isStatic this
                          then stickyRect dom else placeholderRect dom)
              - offsetTop this)
    ∧ _sticky this' = Sticky.refresh dom (_sticky this)
    ∧ _placeholder this'
      = Some (Placeholder.refresh (Sticky.refresh dom (_sticky this)) p)
    ∧ _posScheme this' = _posScheme this
    ∧ _container this' = _container this
    ∧ _options this' = _options this
    ∧ _isTicking this' = _isTicking this
    ∧ _latestKnownScrollY this' = _latestKnownScrollY this
    ∧ offsetTop this' = offsetTop this
    ∧ offsetBottom this' = offsetBottom this
    ∧ _leftPositionWhenAbsolute this' = _leftPositionWhenAbsolute this
    ∧ _leftPositionWhenFixed this' = _leftPositionWhenFixed this.
Proof.
  intros Hp.
  unfold refresh, _calcThreshold, _getStickyDistanceFromDocumentTop.
  destruct this; simpl in *; subst.
  destruct (_isStatic _); simpl; eexists; repeat split; reflexivity.
Qed.

End Refresh.

(** C9.  [refresh] on an instance that has its placeholder returns; it
    leaves the scheme, the sticky element (style and trace) and the
    placeholder's visibility as they were; when the scheme is not Static
    the new threshold is the recorded scroll offset plus the
    PLACEHOLDER's viewport-relative top minus [offsetTop], whatever the
    element's own rectangle is; and the next evaluation is the one that
    decides with it: its below-threshold test compares the recorded
    scroll offset with the new threshold. *)
Theorem refresh_measures_placeholder (dom : Layout) (this : PositionSticky.t) :
  is_Some (PositionSticky._placeholder this) →
  ∃ this',
    PositionSticky.refresh dom this = Some this'
    ∧ PositionSticky._posScheme this' = PositionSticky._posScheme this
    ∧ Sticky.element (PositionSticky._sticky this')
      = Sticky.element (PositionSticky._sticky this)
    ∧ (Placeholder.visible <$> PositionSticky._placeholder this')
      = (Placeholder.visible <$> PositionSticky._placeholder this)
    ∧ (PositionSticky._posScheme this ≠ POS_SCHEME_STATIC →
       let refreshed :=
         PositionSticky._latestKnownScrollY this
         + rect_top (placeholderRect dom) - PositionSticky.offsetTop this in
       PositionSticky._threshold this' = Some refreshed
       ∧ PositionSticky._isBelowThreshold this'
         = bool_decide (PositionSticky._latestKnownScrollY this < refreshed)).
Proof.
  intros [p Hp].
  destruct (refresh_effect dom this p Hp)
    as (this' & Hr & Hth & Hst & Hph & Hscheme & _ & _ & _ & Hy & _).
  exists this'. split; [exact Hr|]. split; [exact Hscheme|]. split; [|split].
  - rewrite Hst. reflexivity.
  - rewrite Hph, Hp. simpl. f_equal. unfold Placeholder.refresh.
    apply visible_resize.
  - intros Hns. cbv zeta.
    unfold PositionSticky._isStatic in Hth.
    rewrite bool_decide_false in Hth by exact Hns.
    split; [exact Hth|].
    unfold PositionSticky._isBelowThreshold. rewrite Hth, Hy. simpl.
    by destruct (bool_decide _).
Qed.

Lemma refresh_measures_placeholder_witness :
  is_Some (PositionSticky._placeholder sampleFixed)
  ∧ PositionSticky._posScheme sampleFixed ≠ POS_SCHEME_STATIC
  ∧ ∃ this',
      PositionSticky.refresh sampleStuck sampleFixed = Some this'
      ∧ PositionSticky._posScheme this' = POS_SCHEME_FIXED
      ∧ PositionSticky._threshold this' = Some (60 + -10 - 10).
Proof.
  assert (Hp : is_Some (PositionSticky._placeholder sampleFixed))
    by (eexists; reflexivity).
  assert (Hns : PositionSticky._posScheme sampleFixed ≠ POS_SCHEME_STATIC)
    by (vm_compute; discriminate).
  split; [exact Hp|]. split; [exact Hns|].
  destruct (refresh_measures_placeholder sampleStuck sampleFixed Hp)
    as (this' & Hr & Hscheme & _ & _ & Hth).
  exists this'. split; [exact Hr|]. split.
  - rewrite Hscheme. reflexivity.
  - exact (proj1 (Hth Hns)).
Defined.

(** C10.  [refresh] on an instance that has its placeholder, under any
    layout (whatever border widths and paddings the container has by
    then), returns an instance with the same [offsetTop], [offsetBottom],
    [_leftPositionWhenFixed], [_leftPositionWhenAbsolute], pending flag
    and recorded scroll offset, and with the same container collaborator
    (cached border widths and paddings included), options and scheme:
    what it writes is [_threshold], [_sticky] and [_placeholder]. *)
Theorem refresh_keeps_offsets (dom : Layout) (this : PositionSticky.t) :
  is_Some (PositionSticky._placeholder this) →
  ∃ this',
    PositionSticky.refresh dom this = Some this'
    ∧ PositionSticky.offsetTop this' = PositionSticky.offsetTop this
    ∧ PositionSticky.offsetBottom this' = PositionSticky.offsetBottom this
    ∧ PositionSticky._leftPositionWhenFixed this'
      = PositionSticky._leftPositionWhenFixed this
    ∧ PositionSticky._leftPositionWhenAbsolute this'
      = PositionSticky._leftPositionWhenAbsolute this
    ∧ PositionSticky._isTicking this' = PositionSticky._isTicking this
    ∧ PositionSticky._latestKnownScrollY this'
      = PositionSticky._latestKnownScrollY this
    ∧ PositionSticky._container this' = PositionSticky._container this
    ∧ PositionSticky._options this' = PositionSticky._options this
    ∧ PositionSticky._posScheme this' = PositionSticky._posScheme this.
Proof.
  intros [p Hp].
  destruct (refresh_effect dom this p Hp)
    as (this' & Hr & _ & _ & _ & Hs & Hc & Ho & Ht & Hy & Htop & Hbot
        & Hla & Hlf).
  exists this'. repeat split; assumption.
Qed.

Lemma refresh_keeps_offsets_witness :
  is_Some (PositionSticky._placeholder sampleScrolled)
  ∧ ∃ this',
      PositionSticky.refresh sampleRestyled sampleScrolled = Some this'
      ∧ PositionSticky.offsetTop this' = 10
      ∧ PositionSticky.offsetBottom this' = 15.
Proof.
  assert (Hp : is_Some (PositionSticky._placeholder sampleScrolled))
    by (eexists; reflexivity).
  split; [exact Hp|].
  destruct (refresh_keeps_offsets sampleRestyled sampleScrolled Hp)
    as (this' & Hr & Htop & Hbot & _).
  exists this'. split; [exact Hr|]. split.
  - rewrite Htop. reflexivity.
  - rewrite Hbot. reflexivity.
Defined.


(** * Further properties of the code *)

(** ** The event loop, for any instance type

    The facts below hold for every pair of handlers that behave like
    [onScroll] and [update]: a notification on an idle instance requests
    one frame and sets the flag, a notification on a pending instance
    does nothing, and an evaluation of a ready instance returns with the
    flag clear. *)

Section EventLoopFacts.

Variable T : Type.
Variable onScroll : Layout → T → T * list FrameCallback.
Variable update : Layout → T → option T.
Variable recordedScrollY : T → Z.
Variable ticking : T → bool.
Variable ready : T → Prop.
Variable F : Type.
Variable frozen : T → F.
Variable V : Type.
Variable view : T → V.

Hypothesis onScroll_idle :
  ∀ d t, ticking t = false →
    ∃ t', onScroll d t = (t', [UpdateCallback]) ∧ ticking t' = true.
Hypothesis onScroll_pending :
  ∀ d t, ticking t = true → onScroll d t = (t, []).
Hypothesis onScroll_ready : ∀ d t, ready t → ready (onScroll d t).1.
Hypothesis onScroll_view : ∀ d t, view (onScroll d t).1 = view t.
Hypothesis onScroll_frozen : ∀ d t, frozen (onScroll d t).1 = frozen t.
Hypothesis update_ready :
  ∀ d t, ready t → ∃ t', update d t = Some t' ∧ ticking t' = false ∧ ready t'.
Hypothesis update_frozen :
  ∀ d t t', update d t = Some t' → frozen t' = frozen t.

Local Notation "'stepT'" := (step T onScroll update recordedScrollY).
Local Notation "'runT'" := (run T onScroll update recordedScrollY).

Lemma run_app (es1 es2 : list Event) (h : Host T) :
  runT (es1 ++ es2) h = runT es1 h ≫= runT es2.
Proof.
  revert h. induction es1 as [|e es1 IH]; intros h; simpl; [reflexivity|].
  destruct (stepT e h) as [h1|]; simpl; [apply IH | reflexivity].
Qed.

Lemma dispatchScroll_keeps (d : Layout) (ls : list ScrollListener) (h : Host T) :
  let h' := dispatchScroll T onScroll d ls h in
  view (instance h') = view (instance h)
  ∧ frozen (instance h') = frozen (instance h)
  ∧ evaluations h' = evaluations h
  ∧ listeners h' = listeners h
  ∧ (ready (instance h) → ready (instance h')).
Proof.
  revert h. induction ls as [|[] ls IH]; intros h; simpl; [done|].
  pose proof (onScroll_view d (instance h)) as Hv.
  pose proof (onScroll_frozen d (instance h)) as Hf.
  pose proof (onScroll_ready d (instance h)) as Hr.
  destruct (onScroll d (instance h)) as [t' cbs]; simpl in *.
  destruct (IH {| instance := t'; listeners := listeners h;
                  frameQueue := frameQueue h ++ cbs;
                  evaluations := evaluations h |})
    as (Hv' & Hf' & He' & Hl' & Hr').
  simpl in *. repeat split; try congruence. auto.
Qed.

Lemma runCallbacks_keeps (d : Layout) (cbs : list FrameCallback) (h : Host T) :
  ready (instance h) →
  ∃ h', runCallbacks T update recordedScrollY d cbs h = Some h'
        ∧ ready (instance h')
        ∧ frozen (instance h') = frozen (instance h)
        ∧ listeners h' = listeners h
        ∧ frameQueue h' = frameQueue h
        ∧ length (evaluations h') = (length (evaluations h) + length cbs)%nat
        ∧ (cbs ≠ [] → ticking (instance h') = false).
Proof.
  revert h. induction cbs as [|[] cbs IH]; intros h Hr; simpl.
  - exists h. repeat split; try done; lia.
  - destruct (update_ready d (instance h) Hr) as (t' & Hu & Ht & Hr').
    rewrite Hu. simpl.
    destruct (IH {| instance := t'; listeners := listeners h;
                    frameQueue := frameQueue h;
                    evaluations := evaluations h
                                   ++ [recordedScrollY (instance h)] |} Hr')
      as (h' & Hrun & Hr2 & Hf & Hl & Hq & Hlen & Htick).
    exists h'. simpl in *. repeat split; try assumption.
    + rewrite Hf. by apply update_frozen with d.
    + rewrite Hlen, length_app. simpl. lia.
    + intros _. destruct cbs as [|cb cbs]; [|apply Htick; discriminate].
      simpl in Hrun. injection Hrun as <-. exact Ht.
Qed.

(** Every run from a ready instance completes, and the frozen fields come
    out as they went in. *)
Lemma run_frozen (es : list Event) (h : Host T) :
  ready (instance h) →
  ∃ h', runT es h = Some h'
        ∧ ready (instance h')
        ∧ frozen (instance h') = frozen (instance h)
        ∧ listeners h' = listeners h.
Proof.
  revert h. induction es as [|[d|d] es IH]; intros h Hr; simpl.
  - by exists h.
  - destruct (dispatchScroll_keeps d (listeners h) h) as (_ & Hf & _ & Hl & Hr1).
    destruct (IH _ (Hr1 Hr)) as (h' & Hrun & Hr' & Hf' & Hl').
    exists h'. repeat split; try assumption; congruence.
  - destruct (runCallbacks_keeps d (frameQueue h)
                {| instance := instance h; listeners := listeners h;
                   frameQueue := []; evaluations := evaluations h |} Hr)
      as (h1 & Hrun1 & Hr1 & Hf1 & Hl1 & _).
    rewrite Hrun1. simpl.
    destruct (IH _ Hr1) as (h' & Hrun & Hr' & Hf' & Hl').
    exists h'. simpl in *. repeat split; try assumption; congruence.
Qed.

(** Scroll notifications alone: the run completes, whatever the
    listeners, and nothing the scroll handler leaves alone has changed. *)
Lemma scrolls_keep_view (ds : list Layout) (h : Host T) :
  ∃ h', runT (ScrollEvent <$> ds) h = Some h'
        ∧ view (instance h') = view (instance h)
        ∧ evaluations h' = evaluations h.
Proof.
  revert h. induction ds as [|d ds IH]; intros h; simpl; [by exists h|].
  destruct (dispatchScroll_keeps d (listeners h) h) as (Hv & _ & He & _).
  destruct (IH (dispatchScroll T onScroll d (listeners h) h))
    as (h' & Hrun & Hv' & He').
  exists h'. repeat split; [exact Hrun | congruence | congruence].
Qed.

Lemma step_consistent (e : Event) (h : Host T) :
  ready (instance h) →
  pendingConsistent ticking h →
  ∃ h', stepT e h = Some h'
        ∧ ready (instance h')
        ∧ pendingConsistent ticking h'
        ∧ (length (evaluations h')
           ≤ length (evaluations h) + countFrames [e])%nat
        ∧ (length (evaluations h') + length (frameQueue h')
           ≤ length (evaluations h) + length (frameQueue h)
             + countScrolls [e])%nat.
Proof.
  intros Hr (Hl & Hq). destruct e as [d|d]; simpl.
  - eexists; split; [reflexivity|]. rewrite Hl. simpl.
    pose proof (onScroll_ready d (instance h) Hr) as Hr'.
    destruct (ticking (instance h)) eqn:Ht.
    + rewrite (onScroll_pending d _ Ht) in *. simpl in *.
      rewrite app_nil_r. unfold pendingConsistent. simpl.
      rewrite Ht. repeat split; try assumption; lia.
    + destruct (onScroll_idle d _ Ht) as (t' & Hs & Ht').
      rewrite Hs in *. simpl in *. unfold pendingConsistent. simpl.
      rewrite Ht', Hq. simpl. repeat split; try assumption; lia.
  - destruct (runCallbacks_keeps d (frameQueue h)
                {| instance := instance h; listeners := listeners h;
                   frameQueue := []; evaluations := evaluations h |} Hr)
      as (h1 & Hrun & Hr1 & _ & Hl1 & Hq1 & Hlen & Htick).
    exists h1. simpl in *. split; [exact Hrun|]. split; [exact Hr1|].
    unfold pendingConsistent. rewrite Hl1, Hq1, Hlen.
    destruct (ticking (instance h)) eqn:Ht; rewrite Hq in *; simpl in *.
    + rewrite Htick by discriminate. repeat split; try assumption; lia.
    + injection Hrun as <-. simpl. rewrite Ht.
      repeat split; try assumption; lia.
Qed.

Lemma run_consistent (es : list Event) (h : Host T) :
  ready (instance h) →
  pendingConsistent ticking h →
  ∃ h', runT es h = Some h'
        ∧ ready (instance h')
        ∧ pendingConsistent ticking h'
        ∧ (length (evaluations h')
           ≤ length (evaluations h) + countFrames es)%nat
        ∧ (length (evaluations h') + length (frameQueue h')
           ≤ length (evaluations h) + length (frameQueue h)
             + countScrolls es)%nat.
Proof.
  revert h. induction es as [|e es IH]; intros h Hr Hc.
  - exists h. simpl. split; [reflexivity|]. split; [exact Hr|].
    split; [exact Hc|]. split; lia.
  - destruct (step_consistent e h Hr Hc) as (h1 & Hs & Hr1 & Hc1 & Hf1 & Hs1).
    destruct (IH h1 Hr1 Hc1) as (h' & Hrun & Hr' & Hc' & Hf' & Hs').
    exists h'. split; [simpl; rewrite Hs; exact Hrun|].
    split; [exact Hr'|]. split; [exact Hc'|].
    destruct e; simpl in *; split; lia.
Qed.

End EventLoopFacts.

(** ** The handlers of the two variants meet the event loop's assumptions *)

Section ModularHandlers.

Import PositionSticky.

Lemma modular_onScroll_idle (d : Layout) (t : t) :
  _isTicking t = false →
  ∃ t', _onScroll d t = (t', [UpdateCallback]) ∧ _isTicking t' = true.
Proof.
  intros Ht. unfold _onScroll. rewrite Ht. simpl.
  eexists; split; [reflexivity|]. by destruct t.
Qed.

Lemma modular_onScroll_pending (d : Layout) (t : t) :
  _isTicking t = true → _onScroll d t = (t, []).
Proof. intros Ht. unfold _onScroll. by rewrite Ht. Qed.

Lemma modular_onScroll_view (d : Layout) (t : t) :
  modularScrollView (_onScroll d t).1 = modularScrollView t.
Proof. unfold _onScroll. destruct t as [? ? ? ? [] ? ? ? ? ? ? ?]; reflexivity. Qed.

Lemma modular_onScroll_frozen (d : Layout) (t : t) :
  modularFrozen (_onScroll d t).1 = modularFrozen t.
Proof. unfold _onScroll. destruct t as [? ? ? ? [] ? ? ? ? ? ? ?]; reflexivity. Qed.

Lemma modular_onScroll_ready (d : Layout) (t : t) :
  is_Some (_placeholder t) → is_Some (_placeholder (_onScroll d t).1).
Proof. unfold _onScroll. destruct t as [? ? ? ? [] ? ? ? ? ? ? ?]; done. Qed.

Lemma modular_update_ready (d : Layout) (t : t) :
  is_Some (_placeholder t) →
  ∃ t', _update d t = Some t' ∧ _isTicking t' = false
        ∧ is_Some (_placeholder t').
Proof.
  intros Hp. destruct (update_effect d t Hp) as (t' & Hu & _ & _ & Ht & Hp').
  by exists t'.
Qed.

Lemma modular_update_frozen (d : Layout) (t t' : t) :
  _update d t = Some t' → modularFrozen t' = modularFrozen t.
Proof.
  destruct t as [? ? [p|] ? ? ? ? ? ? ? ? ?];
    unfold _update, _isBelowThreshold, _canStickyFitInContainer,
      _isStatic, _isFixed, _isAbsolute, _makeStatic, _makeFixed,
      _makeAbsolute; simpl;
    repeat (case_bool_decide; simpl);
    intros Hret; inversion Hret; reflexivity.
Qed.

End ModularHandlers.

Section StandaloneHandlers.

Import Standalone.

Lemma standalone_onScroll_idle (d : Layout) (t : t) :
  isTicking t = false →
  ∃ t', onScroll d t = (t', [UpdateCallback]) ∧ isTicking t' = true.
Proof.
  intros Ht. unfold onScroll. rewrite Ht. simpl.
  eexists; split; [reflexivity|]. by destruct t.
Qed.

Lemma standalone_onScroll_pending (d : Layout) (t : t) :
  isTicking t = true → onScroll d t = (t, []).
Proof. intros Ht. unfold onScroll. by rewrite Ht. Qed.

Lemma standalone_onScroll_view (d : Layout) (t : t) :
  standaloneScrollView (onScroll d t).1 = standaloneScrollView t.
Proof. unfold onScroll. destruct t as [? ? ? [] ? ? ? ? ? ?]; reflexivity. Qed.

Lemma standalone_onScroll_frozen (d : Layout) (t : t) :
  standaloneFrozen (onScroll d t).1 = standaloneFrozen t.
Proof. unfold onScroll. destruct t as [? ? ? [] ? ? ? ? ? ?]; reflexivity. Qed.

Lemma standalone_onScroll_ready (d : Layout) (t : t) :
  is_Some (placeholder t) → is_Some (placeholder (onScroll d t).1).
Proof. unfold onScroll. destruct t as [? ? ? [] ? ? ? ? ? ?]; done. Qed.

Lemma standalone_update_ready (d : Layout) (t : t) :
  is_Some (placeholder t) →
  ∃ t', update d t = Some t' ∧ isTicking t' = false
        ∧ is_Some (placeholder t').
Proof.
  intros Hp.
  destruct (standalone_update_effect d t Hp) as (t' & Hu & _ & _ & Ht & Hp').
  by exists t'.
Qed.

Lemma standalone_update_frozen (d : Layout) (t t' : t) :
  update d t = Some t' → standaloneFrozen t' = standaloneFrozen t.
Proof.
  destruct t as [? ? ? ? ? ? ? ? ? [p|]];
    unfold update, isBelowThreshold, canStickyFitInContainer,
      isStatic, isFixed, isAbsolute, makeStatic, makeFixed, makeAbsolute;
    simpl;
    repeat (case_bool_decide; simpl);
    intros Hret; inversion Hret; reflexivity.
Qed.

End StandaloneHandlers.

(** ** The pending flag and the frame queue *)

(** X1.  Take a host with one subscribed instance that has its
    placeholder, whose frame queue holds one callback when the pending
    flag is set and none when it is clear.  Every sequence of scroll
    notifications and animation frames, in any order, runs to completion
    and ends in such a host again: there is never more than one callback
    waiting.  Along the way no more evaluations are made than frames
    fired, and evaluations made plus callbacks still waiting are no more
    than the notifications received plus the callbacks waiting at the
    start.  This holds in both variants. *)
Theorem at_most_one_evaluation_per_frame
    (h : ModularHost) (g : StandaloneHost) (es : list Event) :
  is_Some (PositionSticky._placeholder (instance h)) →
  pendingConsistent PositionSticky._isTicking h →
  is_Some (Standalone.placeholder (instance g)) →
  pendingConsistent Standalone.isTicking g →
  (∃ h',
     modular_run es h = Some h'
     ∧ pendingConsistent PositionSticky._isTicking h'
     ∧ (length (frameQueue h') ≤ 1)%nat
     ∧ (length (evaluations h')
        ≤ length (evaluations h) + countFrames es)%nat
     ∧ (length (evaluations h') + length (frameQueue h')
        ≤ length (evaluations h) + length (frameQueue h)
          + countScrolls es)%nat)
  ∧ (∃ g',
       standalone_run es g = Some g'
       ∧ pendingConsistent Standalone.isTicking g'
       ∧ (length (frameQueue g') ≤ 1)%nat
       ∧ (length (evaluations g')
          ≤ length (evaluations g) + countFrames es)%nat
       ∧ (length (evaluations g') + length (frameQueue g')
          ≤ length (evaluations g) + length (frameQueue g)
            + countScrolls es)%nat).
Proof.
  intros Hrh Hch Hrg Hcg. split.
  - destruct (run_consistent PositionSticky.t PositionSticky._onScroll
                PositionSticky._update PositionSticky._latestKnownScrollY
                PositionSticky._isTicking
                (λ t, is_Some (PositionSticky._placeholder t))
                _ modularFrozen
                modular_onScroll_idle modular_onScroll_pending
                modular_onScroll_ready modular_update_ready
                modular_update_frozen es h Hrh Hch)
      as (h' & Hrun & _ & Hc & Hf & Hs).
    exists h'. split; [exact Hrun|]. split; [exact Hc|].
    split; [|split; assumption].
    destruct Hc as (_ & ->). by destruct (PositionSticky._isTicking _); simpl; lia.
  - destruct (run_consistent Standalone.t Standalone.onScroll
                Standalone.update Standalone.latestKnownScrollY
                Standalone.isTicking
                (λ t, is_Some (Standalone.placeholder t))
                _ standaloneFrozen
                standalone_onScroll_idle standalone_onScroll_pending
                standalone_onScroll_ready standalone_update_ready
                standalone_update_frozen es g Hrg Hcg)
      as (g' & Hrun & _ & Hc & Hf & Hs).
    exists g'. split; [exact Hrun|]. split; [exact Hc|].
    split; [|split; assumption].
    destruct Hc as (_ & ->). by destruct (Standalone.isTicking _); simpl; lia.
Qed.

Lemma at_most_one_evaluation_per_frame_witness :
  let es := [ScrollEvent (sampleLayout 60 580); ScrollEvent (sampleLayout 70 570);
             AnimationFrame (sampleLayout 70 570);
             AnimationFrame (sampleLayout 70 570);
             ScrollEvent (sampleLayout 700 85)] in
  is_Some (PositionSticky._placeholder sampleInstance)
  ∧ pendingConsistent PositionSticky._isTicking
      (boot (sampleInstance, OnScrollListener))
  ∧ ∃ h', modular_run es (boot (sampleInstance, OnScrollListener)) = Some h'
          ∧ (length (evaluations h') ≤ 0 + 2)%nat
          ∧ (length (frameQueue h') ≤ 1)%nat.
Proof.
  cbv zeta.
  assert (Hrh : is_Some (PositionSticky._placeholder
                           (instance (boot (sampleInstance, OnScrollListener)))))
    by (eexists; reflexivity).
  assert (Hch : pendingConsistent PositionSticky._isTicking
                  (boot (sampleInstance, OnScrollListener)))
    by (split; reflexivity).
  assert (Hrg : is_Some (Standalone.placeholder
                           (instance (boot (sampleStandalone, OnScrollListener)))))
    by (eexists; reflexivity).
  assert (Hcg : pendingConsistent Standalone.isTicking
                  (boot (sampleStandalone, OnScrollListener)))
    by (split; reflexivity).
  split; [exact Hrh|]. split; [exact Hch|].
  destruct (at_most_one_evaluation_per_frame _ _
              [ScrollEvent (sampleLayout 60 580);
               ScrollEvent (sampleLayout 70 570);
               AnimationFrame (sampleLayout 70 570);
               AnimationFrame (sampleLayout 70 570);
               ScrollEvent (sampleLayout 700 85)] Hrh Hch Hrg Hcg)
    as [(h' & Hrun & _ & Hq & Hf & _) _].
  exists h'. split; [exact Hrun|]. split; [exact Hf | exact Hq].
Defined.

(** ** What the handlers leave alone *)

(** X2.  Scroll notifications alone, however many and whatever listeners
    are registered, run to completion without any evaluation, and leave
    the sticky element, the placeholder (styles and traces of style
    assignments included), the scheme, the threshold, the offsets and the
    left positions exactly as they were: all the scroll handler ever
    writes is the recorded scroll offset and the pending flag.  This
    holds in both variants. *)
Theorem scroll_notifications_write_nothing
    (h : ModularHost) (g : StandaloneHost) (ds : list Layout) :
  (∃ h',
     modular_run (ScrollEvent <$> ds) h = Some h'
     ∧ modularScrollView (instance h') = modularScrollView (instance h)
     ∧ evaluations h' = evaluations h)
  ∧ (∃ g',
       standalone_run (ScrollEvent <$> ds) g = Some g'
       ∧ standaloneScrollView (instance g') = standaloneScrollView (instance g)
       ∧ evaluations g' = evaluations g).
Proof.
  split.
  - exact (scrolls_keep_view PositionSticky.t PositionSticky._onScroll
             PositionSticky._update PositionSticky._latestKnownScrollY
             (λ t, is_Some (PositionSticky._placeholder t))
             _ modularFrozen _ modularScrollView
             modular_onScroll_ready modular_onScroll_view
             modular_onScroll_frozen ds h).
  - exact (scrolls_keep_view Standalone.t Standalone.onScroll
             Standalone.update Standalone.latestKnownScrollY
             (λ t, is_Some (Standalone.placeholder t))
             _ standaloneFrozen _ standaloneScrollView
             standalone_onScroll_ready standalone_onScroll_view
             standalone_onScroll_frozen ds g).
Qed.

(** X3.  Every sequence of scroll notifications and animation frames on
    an instance that has its placeholder runs to completion and leaves
    the threshold, [offsetTop], [offsetBottom] and the options as they
    were (in the modular variant also the two left positions, the
    container collaborator and the cached height of the element).  The
    stand-alone variant has no other operation, so there the threshold
    that [init] computed is the threshold for good. *)
Theorem handlers_keep_measurements
    (h : ModularHost) (g : StandaloneHost) (es : list Event) :
  is_Some (PositionSticky._placeholder (instance h)) →
  is_Some (Standalone.placeholder (instance g)) →
  (∃ h',
     modular_run es h = Some h'
     ∧ modularFrozen (instance h') = modularFrozen (instance h))
  ∧ (∃ g',
       standalone_run es g = Some g'
       ∧ standaloneFrozen (instance g') = standaloneFrozen (instance g)).
Proof.
  intros Hrh Hrg. split.
  - destruct (run_frozen PositionSticky.t PositionSticky._onScroll
                PositionSticky._update PositionSticky._latestKnownScrollY
                PositionSticky._isTicking
                (λ t, is_Some (PositionSticky._placeholder t))
                _ modularFrozen _ modularScrollView
                modular_onScroll_ready modular_onScroll_view
                modular_onScroll_frozen modular_update_ready
                modular_update_frozen es h Hrh)
      as (h' & Hrun & _ & Hf & _).
    by exists h'.
  - destruct (run_frozen Standalone.t Standalone.onScroll
                Standalone.update Standalone.latestKnownScrollY
                Standalone.isTicking
                (λ t, is_Some (Standalone.placeholder t))
                _ standaloneFrozen _ standaloneScrollView
                standalone_onScroll_ready standalone_onScroll_view
                standalone_onScroll_frozen standalone_update_ready
                standalone_update_frozen es g Hrg)
      as (g' & Hrun & _ & Hf & _).
    by exists g'.
Qed.

Lemma handlers_keep_measurements_witness :
  is_Some (PositionSticky._placeholder sampleInstance)
  ∧ is_Some (Standalone.placeholder sampleStandalone)
  ∧ ∃ g',
      standalone_run
        [ScrollEvent (sampleLayout 60 580); AnimationFrame (sampleLayout 60 580);
         ScrollEvent (sampleLayout 700 85); AnimationFrame (sampleLayout 700 85)]
        (boot (sampleStandalone, OnScrollListener)) = Some g'
      ∧ Standalone.threshold (instance g') = Some 40.
Proof.
  assert (Hrh : is_Some (PositionSticky._placeholder
                           (instance (boot (sampleInstance, OnScrollListener)))))
    by (eexists; reflexivity).
  assert (Hrg : is_Some (Standalone.placeholder
                           (instance (boot (sampleStandalone, OnScrollListener)))))
    by (eexists; reflexivity).
  split; [exact Hrh|]. split; [exact Hrg|].
  destruct (handlers_keep_measurements _ _
              [ScrollEvent (sampleLayout 60 580);
               AnimationFrame (sampleLayout 60 580);
               ScrollEvent (sampleLayout 700 85);
               AnimationFrame (sampleLayout 700 85)] Hrh Hrg)
    as [_ (g' & Hrun & Hf)].
  exists g'. split; [exact Hrun|].
  injection Hf as Hth _. exact Hth.
Defined.

(** ** Round after round *)

Lemma modular_rounds (rounds : list Round) (h : ModularHost) :
  idleModular h →
  ∃ h',
    modular_run (roundsEvents rounds) h = Some h'
    ∧ evaluations h'
      = evaluations h ++ ((λ r : Round, pageYOffset r.1.1) <$> rounds)
    ∧ idleModular h'.
Proof.
  revert h. induction rounds as [|[[first later] frame] rounds IH];
    intros h Hidle.
  - exists h. simpl. rewrite app_nil_r. by split.
  - destruct (modular_debounce h first later frame Hidle)
      as (h1 & Hrun1 & Hev1 & Hidle1).
    destruct (IH h1 Hidle1) as (h' & Hrun & Hev & Hidle').
    exists h'. split; [|split; [|exact Hidle']].
    + change (roundsEvents ((first, later, frame) :: rounds))
        with (roundEvents (first, later, frame) ++ roundsEvents rounds).
      unfold modular_run. rewrite run_app. fold modular_run.
      change (roundEvents (first, later, frame))
        with (ScrollEvent first :: (ScrollEvent <$> later)
                ++ [AnimationFrame frame]).
      rewrite Hrun1. exact Hrun.
    + rewrite Hev, Hev1, <- app_assoc. reflexivity.
Qed.

Lemma standalone_rounds (rounds : list Round) (g : StandaloneHost) :
  idleStandalone g →
  ∃ g',
    standalone_run (roundsEvents rounds) g = Some g'
    ∧ evaluations g'
      = evaluations g ++ ((λ r : Round, pageYOffset r.1.1) <$> rounds)
    ∧ idleStandalone g'.
Proof.
  revert g. induction rounds as [|[[first later] frame] rounds IH];
    intros g Hidle.
  - exists g. simpl. rewrite app_nil_r. by split.
  - destruct (standalone_debounce g first later frame Hidle)
      as (g1 & Hrun1 & Hev1 & Hidle1).
    destruct (IH g1 Hidle1) as (g' & Hrun & Hev & Hidle').
    exists g'. split; [|split; [|exact Hidle']].
    + change (roundsEvents ((first, later, frame) :: rounds))
        with (roundEvents (first, later, frame) ++ roundsEvents rounds).
      unfold standalone_run. rewrite run_app. fold standalone_run.
      change (roundEvents (first, later, frame))
        with (ScrollEvent first :: (ScrollEvent <$> later)
                ++ [AnimationFrame frame]).
      rewrite Hrun1. exact Hrun.
    + rewrite Hev, Hev1, <- app_assoc. reflexivity.
Qed.

(** X4.  Let scrolling proceed in rounds, each a burst of one or more
    scroll notifications followed by an animation frame, starting from an
    idle host.  The run completes with one evaluation per round, in
    order, and the evaluation of a round is made with the page offset of
    the FIRST notification of that round; the offsets reported by the
    rest of the burst never reach an evaluation.  The host is idle again
    at the end.  This holds in both variants. *)
Theorem rounds_evaluate_first_offsets
    (h : ModularHost) (g : StandaloneHost) (rounds : list Round) :
  idleModular h →
  idleStandalone g →
  (∃ h',
     modular_run (roundsEvents rounds) h = Some h'
     ∧ evaluations h'
       = evaluations h ++ ((λ r : Round, pageYOffset r.1.1) <$> rounds)
     ∧ idleModular h')
  ∧ (∃ g',
       standalone_run (roundsEvents rounds) g = Some g'
       ∧ evaluations g'
         = evaluations g ++ ((λ r : Round, pageYOffset r.1.1) <$> rounds)
       ∧ idleStandalone g').
Proof.
  intros Hh Hg. split.
  - by apply modular_rounds.
  - by apply standalone_rounds.
Qed.

Lemma rounds_evaluate_first_offsets_witness :
  idleModular (boot (sampleInstance, OnScrollListener))
  ∧ idleStandalone (boot (sampleStandalone, OnScrollListener))
  ∧ ∃ h',
      modular_run
        (roundsEvents
           [(sampleLayout 60 580, [sampleLayout 70 570], sampleLayout 70 570);
            (sampleLayout 700 85, [], sampleLayout 700 85)])
        (boot (sampleInstance, OnScrollListener)) = Some h'
      ∧ evaluations h' = [60; 700].
Proof.
  assert (Hh : idleModular (boot (sampleInstance, OnScrollListener)))
    by (repeat split; eexists; reflexivity).
  assert (Hg : idleStandalone (boot (sampleStandalone, OnScrollListener)))
    by (repeat split; eexists; reflexivity).
  split; [exact Hh|]. split; [exact Hg|].
  destruct (rounds_evaluate_first_offsets _ _
              [(sampleLayout 60 580, [sampleLayout 70 570], sampleLayout 70 570);
               (sampleLayout 700 85, [], sampleLayout 700 85)] Hh Hg)
    as [(h' & Hrun & Hev & _) _].
  exists h'. split; [exact Hrun | exact Hev].
Defined.

(** ** Invariants along a run *)

Section EventLoopInvariant.

Variable T : Type.
Variable onScroll : Layout → T → T * list FrameCallback.
Variable update : Layout → T → option T.
Variable recordedScrollY : T → Z.
Variable inv : T → Prop.

Hypothesis onScroll_inv : ∀ d t, inv t → inv (onScroll d t).1.
Hypothesis update_inv : ∀ d t, inv t → ∃ t', update d t = Some t' ∧ inv t'.

Lemma dispatchScroll_inv (d : Layout) (ls : list ScrollListener) (h : Host T) :
  inv (instance h) → inv (instance (dispatchScroll T onScroll d ls h)).
Proof.
  revert h. induction ls as [|[] ls IH]; intros h Hinv; simpl; [exact Hinv|].
  pose proof (onScroll_inv d (instance h) Hinv) as Hnext.
  destruct (onScroll d (instance h)) as [t' cbs]. by apply IH.
Qed.

Lemma runCallbacks_inv (d : Layout) (cbs : list FrameCallback) (h : Host T) :
  inv (instance h) →
  ∃ h', runCallbacks T update recordedScrollY d cbs h = Some h'
        ∧ inv (instance h').
Proof.
  revert h. induction cbs as [|[] cbs IH]; intros h Hinv; simpl; [eauto|].
  destruct (update_inv d (instance h) Hinv) as (t' & -> & Hinv'). simpl.
  by apply IH.
Qed.

Lemma run_invariant (es : list Event) (h : Host T) :
  inv (instance h) →
  ∃ h', run T onScroll update recordedScrollY es h = Some h'
        ∧ inv (instance h').
Proof.
  revert h. induction es as [|[d|d] es IH]; intros h Hinv; simpl; [eauto| |].
  - apply IH. by apply dispatchScroll_inv.
  - destruct (runCallbacks_inv d (frameQueue h)
                {| instance := instance h; listeners := listeners h;
                   frameQueue := []; evaluations := evaluations h |} Hinv)
      as (h1 & -> & Hinv1).
    simpl. by apply IH.
Qed.

End EventLoopInvariant.

Section ModularStyles.

Import PositionSticky.

Lemma not_positioning (k : string) :
  k ∉ positioningProperties →
  k ≠ "position" ∧ k ≠ "top" ∧ k ≠ "bottom" ∧ k ≠ "left".
Proof.
  unfold positioningProperties. rewrite !not_elem_of_cons. tauto.
Qed.


Lemma modular_transitions_styles (t : t) :
  is_Some (_placeholder t) →
  (∃ t', _makeStatic t = Some t' ∧ is_Some (_placeholder t')
         ∧ modularStyleMatches t' ∧ modularStylesKept t t')
  ∧ (∃ t', _makeFixed t = Some t' ∧ is_Some (_placeholder t')
           ∧ modularStyleMatches t' ∧ modularStylesKept t t')
  ∧ (∃ t', _makeAbsolute t = Some t' ∧ is_Some (_placeholder t')
           ∧ modularStyleMatches t' ∧ modularStylesKept t t').
Proof.
  intros [p Hp]. destruct t; simpl in Hp; subst.
  unfold _makeStatic, _makeFixed, _makeAbsolute,
    modularStyleMatches, modularStylesKept, positioned; simpl.
  repeat split;
    (eexists; split; [reflexivity|]; simpl;
     split; [by eexists|]; split;
     [ split; intros Hk; try discriminate Hk; by simplify_map_eq
     | split;
       [ intros k Hk; apply not_positioning in Hk as (? & ? & ? & ?);
         by simplify_map_eq
       | eexists _, _; split; [reflexivity|]; split; [reflexivity|];
         intros k Hk; simpl; by simplify_map_eq ] ]).
Qed.

Lemma modular_update_styles (d : Layout) (t : t) :
  is_Some (_placeholder t) →
  ∃ t', _update d t = Some t'
        ∧ is_Some (_placeholder t')
        ∧ (modularStyleMatches t → modularStyleMatches t')
        ∧ modularStylesKept t t'.
Proof.
  intros Hp.
  set (t0 := set_isTicking false t).
  assert (Hp0 : is_Some (_placeholder t0)) by (destruct t; exact Hp).
  assert (Hm0 : modularStyleMatches t → modularStyleMatches t0)
    by (destruct t; auto).
  assert (Hk0 : ∀ t', modularStylesKept t0 t' → modularStylesKept t t')
    by (destruct t; auto).
  assert (Hkk : modularStylesKept t0 t0).
  { destruct Hp0 as [p Hp0]. split; [done|]. by exists p, p. }
  destruct (modular_transitions_styles t0 Hp0)
    as ((s & Hs & ? & ? & ?) & (f & Hf & ? & ? & ?) & (a & Ha & ? & ? & ?)).
  unfold _update. fold t0.
  destruct (_isBelowThreshold t0); [|destruct (_canStickyFitInContainer d t0)].
  - destruct (_isStatic t0); simpl; eauto 10.
  - destruct (_isFixed t0); simpl; eauto 10.
  - destruct (_isAbsolute t0); simpl; eauto 10.
Qed.

Lemma modular_onScroll_styles (d : Layout) (t : t) :
  (is_Some (_placeholder t) → is_Some (_placeholder (_onScroll d t).1))
  ∧ (modularStyleMatches t → modularStyleMatches (_onScroll d t).1)
  ∧ (∀ t0, modularStylesKept t0 t → modularStylesKept t0 (_onScroll d t).1).
Proof. unfold _onScroll. destruct t as [? ? ? ? [] ? ? ? ? ? ? ?]; done. Qed.

Lemma modularStylesKept_trans (a b c : t) :
  modularStylesKept a b → modularStylesKept b c → modularStylesKept a c.
Proof.
  intros (Hab & pa & pb & Hpa & Hpb & Hpab) (Hbc & pb' & pc & Hpb' & Hpc & Hpbc).
  rewrite Hpb in Hpb'. injection Hpb' as <-.
  split.
  - intros k Hk. by rewrite Hbc, Hab.
  - exists pa, pc. repeat split; try assumption.
    intros k Hk. by rewrite Hpbc, Hpab.
Qed.

End ModularStyles.

Section StandaloneStyles.

Import Standalone.

Lemma not_standalone_positioning (k : string) :
  k ∉ ["position"; "top"; "bottom"] →
  k ≠ "position" ∧ k ≠ "top" ∧ k ≠ "bottom".
Proof. rewrite !not_elem_of_cons. tauto. Qed.

Lemma standalone_transitions_styles (t : t) :
  is_Some (placeholder t) →
  (∃ t', makeStatic t = Some t' ∧ standaloneInvariant t'
         ∧ standaloneStylesKept t t')
  ∧ (∃ t', makeFixed t = Some t' ∧ standaloneInvariant t'
           ∧ standaloneStylesKept t t')
  ∧ (∃ t', makeAbsolute t = Some t' ∧ standaloneInvariant t'
           ∧ standaloneStylesKept t t').
Proof.
  intros [p Hp]. destruct t; simpl in Hp; subst.
  unfold makeStatic, makeFixed, makeAbsolute,
    standaloneInvariant, standaloneStylesKept, positioned; simpl.
  split; [|split];
    (eexists; split; [reflexivity|]; simpl; split;
     [ eexists; split; [reflexivity|]
     | split;
       [ intros k Hk; apply not_standalone_positioning in Hk as (? & ? & ?);
         by simplify_map_eq
       | eexists _, _; split; [reflexivity|]; split; [reflexivity|];
         intros k Hk; simpl; by simplify_map_eq ] ]).
  - left. by simplify_map_eq.
  - right; left. by simplify_map_eq.
  - right; right. by simplify_map_eq.
Qed.

Lemma standaloneInvariant_ready (t : t) :
  standaloneInvariant t → is_Some (placeholder t).
Proof. intros (p & Hp & _). by exists p. Qed.

Lemma standalone_update_styles (d : Layout) (t : t) :
  standaloneInvariant t →
  ∃ t', update d t = Some t' ∧ standaloneInvariant t'
        ∧ standaloneStylesKept t t' ∧ is_Some (posScheme t').
Proof.
  intros Hinv.
  set (t0 := set_isTicking false t).
  assert (Hinv0 : standaloneInvariant t0) by (destruct t; exact Hinv).
  pose proof (standaloneInvariant_ready t0 Hinv0) as Hp0.
  assert (Hk0 : ∀ t', standaloneStylesKept t0 t' → standaloneStylesKept t t')
    by (destruct t; auto).
  assert (Hkk : standaloneStylesKept t0 t0).
  { destruct Hp0 as [p Hp0]. split; [done|]. by exists p, p. }
  destruct (standalone_transitions_styles t0 Hp0)
    as ((s & Hs & ? & ?) & (f & Hf & ? & ?) & (a & Ha & ? & ?)).
  assert (Hsch : ∀ u, makeStatic t0 = Some u ∨ makeFixed t0 = Some u
                      ∨ makeAbsolute t0 = Some u → is_Some (posScheme u)).
  { intros u. unfold makeStatic, makeFixed, makeAbsolute.
    destruct Hp0 as [p Hp0]. destruct t; simpl in *; subst. simpl.
    intros [[= <-]|[[= <-]|[= <-]]]; by eexists. }
  unfold update. fold t0.
  destruct (isBelowThreshold t0); [|destruct (canStickyFitInContainer d t0)].
  - destruct (isStatic t0) eqn:E; simpl; [|eauto 10].
    exists t0. split; [reflexivity|]. split; [exact Hinv0|].
    split; [by apply Hk0|].
    unfold isStatic in E. apply bool_decide_eq_true in E. rewrite E. by eexists.
  - destruct (isFixed t0) eqn:E; simpl; [|eauto 10].
    exists t0. split; [reflexivity|]. split; [exact Hinv0|].
    split; [by apply Hk0|].
    unfold isFixed in E. apply bool_decide_eq_true in E. rewrite E. by eexists.
  - destruct (isAbsolute t0) eqn:E; simpl; [|eauto 10].
    exists t0. split; [reflexivity|]. split; [exact Hinv0|].
    split; [by apply Hk0|].
    unfold isAbsolute in E. apply bool_decide_eq_true in E. rewrite E. by eexists.
Qed.

Lemma standalone_onScroll_invariant (d : Layout) (t : t) :
  standaloneInvariant t → standaloneInvariant (onScroll d t).1.
Proof. unfold onScroll. destruct t as [? ? ? [] ? ? ? ? ? ?]; done. Qed.

(** The instance [create] builds. *)
Lemma standalone_create_shape (dom : Layout) (el : HTMLElement)
    (opts : option Options) (created : t * ScrollListener) :
  create dom el opts = Some created →
  ∃ parent,
    parentNode el = Some parent
    ∧ created.2 = OnScrollListener
    ∧ element created.1
      = setProperty "width" (px (rect_width (stickyRect dom))) el
    ∧ container created.1
      = (if bool_decide (getPropertyValue "position" parent ≠ "relative")
            && bool_decide (getPropertyValue "position" parent ≠ "absolute")
         then setProperty "position" "relative" parent else parent)
    ∧ posScheme created.1 = None
    ∧ isTicking created.1 = false
    ∧ latestKnownScrollY created.1 = pageYOffset dom
    ∧ options created.1 = default emptyOptions opts
    ∧ offsetTop created.1
      = default (cs_borderTopWidth (containerBox dom)
                 + cs_paddingTop (containerBox dom))
          (offsetTopOption (default emptyOptions opts))
    ∧ offsetBottom created.1
      = cs_borderBottomWidth (containerBox dom)
        + cs_paddingBottom (containerBox dom)
    ∧ placeholder created.1
      = Some (setProperty "height" (px (rect_height (stickyRect dom)))
                (setProperty "width" (px (rect_width (stickyRect dom)))
                   (setProperty "display" "none" createElement))).
Proof.
  unfold create, init.
  destruct (parentNode el) as [parent|]; simpl; [|discriminate].
  unfold validateContainerPosScheme, setOffsetTop, getPropertyValue. simpl.
  repeat case_bool_decide; simpl;
    destruct (offsetTopOption _); simpl;
    intros [= <-]; exists parent; simpl; repeat split; try reflexivity;
    repeat case_bool_decide; done.
Qed.

End StandaloneStyles.

Lemma standalone_onScroll_kept (d : Layout) (t t0 : Standalone.t) :
  standaloneStylesKept t0 t → standaloneStylesKept t0 (Standalone.onScroll d t).1.
Proof.
  unfold Standalone.onScroll. destruct t as [? ? ? [] ? ? ? ? ? ?]; done.
Qed.

Lemma standaloneStylesKept_trans (a b c : Standalone.t) :
  standaloneStylesKept a b → standaloneStylesKept b c →
  standaloneStylesKept a c.
Proof.
  intros (Hab & pa & pb & Hpa & Hpb & Hpab) (Hbc & pb' & pc & Hpb' & Hpc & Hpbc).
  rewrite Hpb in Hpb'. injection Hpb' as <-.
  split.
  - intros k Hk. by rewrite Hbc, Hab.
  - exists pa, pc. repeat split; try assumption.
    intros k Hk. by rewrite Hpbc, Hpab.
Qed.

(** X5.  Stand-alone variant.  [create] returns an instance with no
    scheme yet ([posScheme] is [null]) and the placeholder hidden.  From
    there every sequence of scroll notifications and animation frames
    runs to completion, and after it: the placeholder exists; if no
    scheme has been applied it is hidden; otherwise the scheme is Static,
    Fixed or Absolute, the placeholder's [display] is [none] for Static
    and [block] for the other two, and the element's inline style is
    [position: static], or [position: fixed] with [top] at [offsetTop]
    and no [bottom], or [position: absolute] with [bottom] at
    [offsetBottom] and no [top], as the scheme says. *)
Theorem standalone_styles_follow_scheme
    (dom : Layout) (el : HTMLElement) (opts : option Options)
    (created : Standalone.t * ScrollListener) :
  Standalone.create dom el opts = Some created →
  Standalone.posScheme created.1 = None
  ∧ standaloneInvariant created.1
  ∧ ∀ es : list Event,
      ∃ g, standalone_run es (boot created) = Some g
           ∧ standaloneInvariant (instance g).
Proof.
  intros Hc.
  destruct (standalone_create_shape _ _ _ _ Hc)
    as (parent & _ & _ & _ & _ & Hs & _ & _ & _ & _ & _ & Hp).
  assert (Hinv : standaloneInvariant created.1).
  { eexists. split; [exact Hp|]. rewrite Hs. simpl. by simplify_map_eq. }
  split; [exact Hs|]. split; [exact Hinv|].
  intros es.
  apply (run_invariant Standalone.t Standalone.onScroll Standalone.update
           Standalone.latestKnownScrollY standaloneInvariant).
  - intros d t. apply standalone_onScroll_invariant.
  - intros d t Ht.
    destruct (standalone_update_styles d t Ht) as (t' & Hu & Ht' & _).
    by exists t'.
  - exact Hinv.
Qed.

Lemma standalone_styles_follow_scheme_witness :
  Standalone.create (sampleLayout 0 640) sampleElement None
  = Some (sampleStandalone, OnScrollListener)
  ∧ ∃ g,
      standalone_run
        [ScrollEvent (sampleLayout 60 580); AnimationFrame (sampleLayout 60 580);
         ScrollEvent (sampleLayout 700 85); AnimationFrame (sampleLayout 700 85)]
        (boot (sampleStandalone, OnScrollListener)) = Some g
      ∧ standaloneInvariant (instance g).
Proof.
  assert (Hc : Standalone.create (sampleLayout 0 640) sampleElement None
               = Some (sampleStandalone, OnScrollListener))
    by (vm_compute; reflexivity).
  split; [exact Hc|].
  exact (proj2 (proj2 (standalone_styles_follow_scheme (sampleLayout 0 640)
                         sampleElement None
                         (sampleStandalone, OnScrollListener) Hc)) _).
Defined.

(** X6.  Modular variant.  Take an instance that has its placeholder and
    whose element, if the scheme is Fixed or Absolute, carries that
    scheme's styles (an instance fresh from [create] is Static and
    qualifies).  After every sequence of scroll notifications and
    animation frames: whenever the scheme is Fixed the element has
    [position: fixed], [top] at [offsetTop], [left] at
    [_leftPositionWhenFixed] and no [bottom]; whenever it is Absolute the
    element has [position: absolute], [bottom] at the container's bottom
    padding, [left] at [_leftPositionWhenAbsolute] and no [top]. *)
Theorem modular_styles_follow_scheme (h : ModularHost) (es : list Event) :
  is_Some (PositionSticky._placeholder (instance h)) →
  modularStyleMatches (instance h) →
  ∃ h', modular_run es h = Some h' ∧ modularStyleMatches (instance h').
Proof.
  intros Hp Hm.
  destruct (run_invariant PositionSticky.t PositionSticky._onScroll
              PositionSticky._update PositionSticky._latestKnownScrollY
              (λ t, is_Some (PositionSticky._placeholder t)
                    ∧ modularStyleMatches t)) with (es := es) (h := h)
    as (h' & Hrun & _ & Hm').
  - intros d t (Hpt & Hmt).
    destruct (modular_onScroll_styles d t) as (Hp1 & Hm1 & _). auto.
  - intros d t (Hpt & Hmt).
    destruct (modular_update_styles d t Hpt) as (t' & Hu & Hp' & Hm' & _).
    exists t'. auto.
  - by split.
  - by exists h'.
Qed.

Lemma modular_styles_follow_scheme_witness :
  is_Some (PositionSticky._placeholder sampleInstance)
  ∧ modularStyleMatches sampleInstance
  ∧ ∃ h',
      modular_run
        [ScrollEvent (sampleLayout 60 580); AnimationFrame (sampleLayout 60 580);
         ScrollEvent (sampleLayout 700 85); AnimationFrame (sampleLayout 700 85)]
        (boot (sampleInstance, OnScrollListener)) = Some h'
      ∧ modularStyleMatches (instance h').
Proof.
  assert (Hp : is_Some (PositionSticky._placeholder
                          (instance (boot (sampleInstance, OnScrollListener)))))
    by (eexists; reflexivity).
  assert (Hm : modularStyleMatches
                 (instance (boot (sampleInstance, OnScrollListener))))
    by (split; intros Hs; vm_compute in Hs; discriminate Hs).
  split; [exact Hp|]. split; [exact Hm|].
  exact (modular_styles_follow_scheme _ _ Hp Hm).
Defined.

(** X7.  Along every sequence of scroll notifications and animation
    frames the code assigns, on the sticky element, nothing but
    [position], [top], [bottom] and [left] (the stand-alone variant not
    even [left]) and, on the placeholder, nothing but [display]: every
    other inline style property of the two nodes reads at the end what
    it read at the start. *)
Theorem runs_write_positioning_only
    (h : ModularHost) (g : StandaloneHost) (es : list Event) :
  is_Some (PositionSticky._placeholder (instance h)) →
  standaloneInvariant (instance g) →
  (∃ h', modular_run es h = Some h'
         ∧ modularStylesKept (instance h) (instance h'))
  ∧ (∃ g', standalone_run es g = Some g'
           ∧ standaloneStylesKept (instance g) (instance g')).
Proof.
  intros [p Hp] Hg. split.
  - destruct (run_invariant PositionSticky.t PositionSticky._onScroll
                PositionSticky._update PositionSticky._latestKnownScrollY
                (λ t, is_Some (PositionSticky._placeholder t)
                      ∧ modularStylesKept (instance h) t))
      with (es := es) (h := h) as (h' & Hrun & _ & Hk).
    + intros d t (Hpt & Hkt).
      destruct (modular_onScroll_styles d t) as (Hp1 & _ & Hk1). auto.
    + intros d t (Hpt & Hkt).
      destruct (modular_update_styles d t Hpt) as (t' & Hu & Hp' & _ & Hk').
      exists t'. eauto using modularStylesKept_trans.
    + split; [by exists p|]. split; [done|]. by exists p, p.
    + by exists h'.
  - destruct (standaloneInvariant_ready _ Hg) as [q Hq].
    destruct (run_invariant Standalone.t Standalone.onScroll
                Standalone.update Standalone.latestKnownScrollY
                (λ t, standaloneInvariant t
                      ∧ standaloneStylesKept (instance g) t))
      with (es := es) (h := g) as (g' & Hrun & _ & Hk).
    + intros d t (Hit & Hkt). split.
      * by apply standalone_onScroll_invariant.
      * by apply standalone_onScroll_kept.
    + intros d t (Hit & Hkt).
      destruct (standalone_update_styles d t Hit) as (t' & Hu & Hi' & Hk' & _).
      exists t'. eauto using standaloneStylesKept_trans.
    + split; [exact Hg|]. split; [done|]. by exists q, q.
    + by exists g'.
Qed.

Lemma runs_write_positioning_only_witness :
  is_Some (PositionSticky._placeholder sampleInstance)
  ∧ standaloneInvariant sampleStandalone
  ∧ ∃ g',
      standalone_run
        [ScrollEvent (sampleLayout 60 580); AnimationFrame (sampleLayout 60 580)]
        (boot (sampleStandalone, OnScrollListener)) = Some g'
      ∧ style (Standalone.element (instance g')) !! "width" = Some "200px".
Proof.
  assert (Hp : is_Some (PositionSticky._placeholder
                          (instance (boot (sampleInstance, OnScrollListener)))))
    by (eexists; reflexivity).
  assert (Hg : standaloneInvariant
                 (instance (boot (sampleStandalone, OnScrollListener))))
    by (eexists; split; [reflexivity | vm_compute; reflexivity]).
  split; [exact Hp|]. split; [exact Hg|].
  destruct (runs_write_positioning_only _ _
              [ScrollEvent (sampleLayout 60 580);
               AnimationFrame (sampleLayout 60 580)] Hp Hg)
    as [_ (g' & Hrun & Hk & _)].
  exists g'. split; [exact Hrun|].
  rewrite Hk; [vm_compute; reflexivity|].
  vm_compute. intros Hin.
  repeat (apply elem_of_cons in Hin as [Hin|Hin]; [discriminate Hin|]).
  by apply elem_of_nil in Hin.
Defined.

(** ** Initialisation *)

(** X8.  The [offsetTop] option.  When both variants are created with
    the same options: a numeric [offsetTop] of zero or more is taken as
    it is, zero included; in every other case (no options, no
    [offsetTop], a value that is not a number, a negative number)
    [offsetTop] is the container's top border width plus its top padding
    (as cached by the container collaborator in the modular variant, as
    read from the computed style in the stand-alone one).  So
    [offsetTop] is never negative unless that sum is. *)
Theorem create_offsetTop_option
    (dom : Layout) (el : HTMLElement) (opts : option Options)
    (m : PositionSticky.t * ScrollListener)
    (s : Standalone.t * ScrollListener) :
  PositionSticky.create dom el opts = Some m →
  Standalone.create dom el opts = Some s →
  let given := options_offsetTop (default emptyOptions opts) in
  let cached :=
    Container.borderTopWidth (PositionSticky._container m.1)
    + Container.paddingTop (PositionSticky._container m.1) in
  let computed :=
    cs_borderTopWidth (containerBox dom) + cs_paddingTop (containerBox dom) in
  (∀ n, given = JsNumber n → 0 ≤ n →
        PositionSticky.offsetTop m.1 = n ∧ Standalone.offsetTop s.1 = n)
  ∧ ((∀ n, given = JsNumber n → n < 0) →
     PositionSticky.offsetTop m.1 = cached
     ∧ Standalone.offsetTop s.1 = computed)
  ∧ (0 ≤ cached → 0 ≤ PositionSticky.offsetTop m.1)
  ∧ (0 ≤ computed → 0 ≤ Standalone.offsetTop s.1).
Proof.
  intros Hm Hs.
  destruct (create_shape _ _ _ _ Hm) as (parent & _ & ->).
  destruct (standalone_create_shape _ _ _ _ Hs)
    as (_ & _ & _ & _ & _ & _ & _ & _ & _ & Htop & _).
  cbv zeta. simpl. rewrite Htop. clear Htop.
  unfold offsetTopOption.
  destruct (options_offsetTop (default emptyOptions opts)) as [|n|str]; simpl.
  - repeat split; try done; intros; lia.
  - case_bool_decide; simpl.
    + split; [by intros ? [= <-] ?|].
      split; [|split; intros; lia].
      intros Hneg. specialize (Hneg n eq_refl). lia.
    + split; [intros ? [= <-] ?; lia|].
      split; [done|]. split; intros; lia.
  - repeat split; try done; intros; lia.
Qed.

Lemma create_offsetTop_option_witness :
  let opts := Some {| options_offsetTop := JsNumber 0 |} in
  ∃ m s,
    PositionSticky.create (sampleLayout 0 640) sampleElement opts = Some m
    ∧ Standalone.create (sampleLayout 0 640) sampleElement opts = Some s
    ∧ PositionSticky.offsetTop m.1 = 0
    ∧ Standalone.offsetTop s.1 = 0.
Proof.
  cbv zeta.
  destruct (PositionSticky.create (sampleLayout 0 640) sampleElement
              (Some {| options_offsetTop := JsNumber 0 |})) as [m|] eqn:Hm;
    [|vm_compute in Hm; discriminate Hm].
  destruct (Standalone.create (sampleLayout 0 640) sampleElement
              (Some {| options_offsetTop := JsNumber 0 |})) as [s|] eqn:Hs;
    [|vm_compute in Hs; discriminate Hs].
  exists m, s. split; [reflexivity|]. split; [reflexivity|].
  destruct (create_offsetTop_option _ _ _ m s Hm Hs) as (Hgiven & _).
  apply (Hgiven 0); [reflexivity | lia].
Defined.

(** X9.  Stand-alone [create] and the container.  Without a parent node
    [create] throws.  With one it returns, and the container's inline
    [position] is then [relative] or [absolute]: a container that already
    had one of the two is left as it was, with no style assignment; any
    other container gets exactly one assignment, [position: relative].
    Validating the container again changes nothing. *)
Theorem standalone_create_container
    (dom : Layout) (el : HTMLElement) (opts : option Options) :
  match parentNode el with
  | None => Standalone.create dom el opts = None
  | Some parent =>
      ∃ created,
        Standalone.create dom el opts = Some created
        ∧ let before := getPropertyValue "position" parent in
          let after :=
            getPropertyValue "position" (Standalone.container created.1) in
          (after = "relative" ∨ after = "absolute")
          ∧ (before = "relative" ∨ before = "absolute" →
             Standalone.container created.1 = parent)
          ∧ (before ≠ "relative" → before ≠ "absolute" →
             Standalone.container created.1
             = setProperty "position" "relative" parent)
          ∧ Standalone.validateContainerPosScheme created.1 = created.1
  end.
Proof.
  destruct (parentNode el) as [parent|] eqn:Hparent.
  - destruct (Standalone.create dom el opts) as [created|] eqn:Hc.
    + exists created. split; [reflexivity|].
      destruct (standalone_create_shape _ _ _ _ Hc)
        as (parent' & Hp' & _ & _ & Hcont & _).
      rewrite Hparent in Hp'. injection Hp' as <-.
      cbv zeta.
      assert (Hafter :
                getPropertyValue "position" (Standalone.container created.1)
                = "relative"
                ∨ getPropertyValue "position" (Standalone.container created.1)
                  = "absolute").
      { rewrite Hcont.
        destruct (decide (getPropertyValue "position" parent = "relative"))
          as [Hr|Hr];
          [|destruct (decide (getPropertyValue "position" parent = "absolute"))
              as [Ha|Ha]].
        - rewrite (bool_decide_false (_ ≠ "relative")) by (intros Hn; exact (Hn Hr)).
          simpl. by left.
        - rewrite (bool_decide_false (_ ≠ "absolute")) by (intros Hn; exact (Hn Ha)).
          rewrite andb_false_r. by right.
        - rewrite !bool_decide_true by assumption. simpl.
          left. unfold getPropertyValue. simpl. by rewrite lookup_insert_eq. }
      split; [exact Hafter|]. split; [|split].
      * intros Hb. rewrite Hcont.
        repeat case_bool_decide; simpl; try reflexivity.
        destruct Hb; contradiction.
      * intros Hr Ha. rewrite Hcont.
        rewrite !bool_decide_true by assumption. reflexivity.
      * unfold Standalone.validateContainerPosScheme.
        destruct Hafter as [-> | ->]; repeat case_bool_decide; done.
    + unfold Standalone.create, Standalone.init in Hc.
      rewrite Hparent in Hc. simpl in Hc. discriminate Hc.
  - unfold Standalone.create, Standalone.init. rewrite Hparent. reflexivity.
Qed.

(** ** The offset-parent loop *)

Lemma offsetParentLoop_chain :
  ∀ (b : OffsetBox) (total : Z),
    Standalone.offsetParentLoop total b
    = total + foldr Z.add 0 (offsetChain b).
Proof.
  fix IH 1. intros [top [parent|]] total; simpl.
  - rewrite IH. lia.
  - lia.
Qed.

(** X10.  Stand-alone [getElementDistanceFromDocumentTop].  When the
    recorded scroll offset is not zero the result is the sum of
    [offsetTop] over the element and every offset parent up the chain,
    each counted once, whatever the scroll offset and the bounding
    rectangles are; the loop body runs at least once, so an element
    without offset parent yields its own [offsetTop].  When the recorded
    scroll offset is zero the chain is not consulted at all. *)
Theorem distance_sums_offset_chain (dom : Layout) (s : Standalone.t) :
  (Standalone.latestKnownScrollY s ≠ 0 →
   Standalone.getElementDistanceFromDocumentTop dom s
   = foldr Z.add 0 (offsetChain (stickyOffsets dom)))
  ∧ (Standalone.latestKnownScrollY s = 0 →
     Standalone.getElementDistanceFromDocumentTop dom s
     = rect_top (stickyRect dom))
  ∧ (∀ top, stickyOffsets dom = MkOffsetBox top None →
            Standalone.latestKnownScrollY s ≠ 0 →
            Standalone.getElementDistanceFromDocumentTop dom s = top)
  ∧ (∃ top rest, offsetChain (stickyOffsets dom) = top :: rest).
Proof.
  unfold Standalone.getElementDistanceFromDocumentTop.
  split; [|split; [|split]].
  - intros Hy. rewrite bool_decide_false by exact Hy.
    rewrite offsetParentLoop_chain. lia.
  - intros Hy. by rewrite bool_decide_true.
  - intros top Hb Hy. rewrite bool_decide_false by exact Hy.
    rewrite Hb. simpl. lia.
  - destruct (stickyOffsets dom) as [top parent]. simpl. eauto.
Qed.

(** ** [refresh] followed by an evaluation *)




(** ** The first evaluation of the stand-alone variant *)

(** X12.  Stand-alone variant.  While no scheme has been applied
    ([posScheme] is [null], as [init] leaves it), an evaluation always
    applies a transition, even when the outcome is Static: it returns
    with a scheme set, with at least one more style assignment on the
    element and one more on the placeholder.  And no evaluation ever
    leaves [posScheme] at [null]. *)
Theorem standalone_first_update_applies (d : Layout) (s : Standalone.t) :
  is_Some (Standalone.placeholder s) →
  ∃ s',
    Standalone.update d s = Some s'
    ∧ (Standalone.posScheme s = None →
       is_Some (Standalone.posScheme s')
       ∧ (length (styleWrites (Standalone.element s))
          < length (styleWrites (Standalone.element s')))%nat
       ∧ ∃ p p',
           Standalone.placeholder s = Some p
           ∧ Standalone.placeholder s' = Some p'
           ∧ (length (styleWrites p) < length (styleWrites p'))%nat)
    ∧ (is_Some (Standalone.posScheme s) → is_Some (Standalone.posScheme s')).
Proof.
  intros [p Hp]. destruct s; simpl in Hp; subst.
  unfold Standalone.update, Standalone.isBelowThreshold,
    Standalone.canStickyFitInContainer, Standalone.isStatic,
    Standalone.isFixed, Standalone.isAbsolute, Standalone.makeStatic,
    Standalone.makeFixed, Standalone.makeAbsolute; simpl.
  repeat (case_bool_decide; simpl);
    (eexists; split; [reflexivity|]; simpl; split;
     [ intros Hnone;
       first
         [ congruence
         | split; [by eexists|]; split;
           [ rewrite !length_app; simpl; lia
           | eexists _, _; split; [reflexivity|]; split; [reflexivity|];
             simpl; rewrite !length_app; simpl; lia ] ]
     | intros Hsome; first [exact Hsome | by eexists] ]).
Qed.

Lemma standalone_first_update_applies_witness :
  is_Some (Standalone.placeholder sampleStandalone)
  ∧ Standalone.posScheme sampleStandalone = None
  ∧ ∃ s',
      Standalone.update (sampleLayout 0 640) sampleStandalone = Some s'
      ∧ is_Some (Standalone.posScheme s').
Proof.
  assert (Hp : is_Some (Standalone.placeholder sampleStandalone))
    by (eexists; reflexivity).
  split; [exact Hp|]. split; [reflexivity|].
  destruct (standalone_first_update_applies (sampleLayout 0 640)
              sampleStandalone Hp) as (s' & Hu & Hfirst & _).
  exists s'. split; [exact Hu|]. exact (proj1 (Hfirst eq_refl)).
Defined.

(** ** Transitions and the cached offsets *)

Lemma append_px_inj (s1 s2 : string) :
  s1 +:+ "px" = s2 +:+ "px" → s1 = s2.
Proof.
  revert s2. induction s1 as [|a s1 IH]; intros s2 Heq.
  - destruct s2 as [|b [|c [|e s2]]]; simpl in Heq; try done;
      by simplify_eq.
  - destruct s2 as [|b s2]; simpl in Heq.
    + destruct s1 as [|c [|e s1]]; simpl in Heq; try done; by simplify_eq.
    + injection Heq as -> Heq. f_equal. by apply IH.
Qed.

Lemma px_inj (a b : Z) : px a = px b → a = b.
Proof.
  unfold px. intros Heq. apply append_px_inj in Heq.
  by apply (inj pretty) in Heq.
Qed.

(** X13.  Modular variant.  Once [_setOffsetBottom] has run, the [bottom]
    that the transition to Absolute assigns equals [offsetBottom] pixels
    exactly when the container has no bottom border: with a border of
    non-zero width the element is placed at the bottom padding alone, a
    border's width away from [offsetBottom]. *)
Theorem absolute_bottom_is_offsetBottom_iff_no_border (t : PositionSticky.t) :
  is_Some (PositionSticky._placeholder t) →
  let t1 := PositionSticky._setOffsetBottom t in
  ∃ a,
    PositionSticky._makeAbsolute t1 = Some a
    ∧ PositionSticky.offsetBottom a
      = Container.borderBottomWidth (PositionSticky._container t)
        + Container.paddingBottom (PositionSticky._container t)
    ∧ (style (Sticky.element (PositionSticky._sticky a)) !! "bottom"
       = Some (px (PositionSticky.offsetBottom a))
       ↔ Container.borderBottomWidth (PositionSticky._container t) = 0).
Proof.
  intros [p Hp]. cbv zeta. destruct t; simpl in Hp; subst.
  unfold PositionSticky._setOffsetBottom, PositionSticky._makeAbsolute. simpl.
  eexists. split; [reflexivity|]. simpl. split; [reflexivity|].
  rewrite lookup_insert_ne by done. rewrite lookup_insert_eq.
  split.
  - intros [= Heq]. apply px_inj in Heq. lia.
  - intros ->. reflexivity.
Qed.

Lemma absolute_bottom_is_offsetBottom_iff_no_border_witness :
  is_Some (PositionSticky._placeholder sampleInstance)
  ∧ ∃ a,
      PositionSticky._makeAbsolute
        (PositionSticky._setOffsetBottom sampleInstance) = Some a
      ∧ style (Sticky.element (PositionSticky._sticky a)) !! "bottom"
        ≠ Some (px (PositionSticky.offsetBottom a)).
Proof.
  assert (Hp : is_Some (PositionSticky._placeholder sampleInstance))
    by (eexists; reflexivity).
  split; [exact Hp|].
  destruct (absolute_bottom_is_offsetBottom_iff_no_border sampleInstance Hp)
    as (a & Ha & _ & Hiff).
  exists a. split; [exact Ha|].
  intros Heq. apply Hiff in Heq. vm_compute in Heq. discriminate Heq.
Defined.

Section History.

Import PositionSticky.

Ltac map_cases k :=
  apply map_eq; intros k;
  destruct (decide (k = "left")) as [->|];
    [by simplify_map_eq|];
  destruct (decide (k = "top")) as [->|];
    [by simplify_map_eq|];
  destruct (decide (k = "bottom")) as [->|];
    [by simplify_map_eq|];
  destruct (decide (k = "position")) as [->|];
    [by simplify_map_eq|];
  by simplify_map_eq.

Lemma transition_forgets (first : t → option t) (t : t) :
  first = _makeStatic ∨ first = _makeFixed ∨ first = _makeAbsolute →
  is_Some (_placeholder t) →
  ∃ t1 f f1 a a1,
    first t = Some t1
    ∧ _makeFixed t = Some f ∧ _makeFixed t1 = Some f1
    ∧ _makeAbsolute t = Some a ∧ _makeAbsolute t1 = Some a1
    ∧ style (Sticky.element (_sticky f1)) = style (Sticky.element (_sticky f))
    ∧ style (Sticky.element (_sticky a1)) = style (Sticky.element (_sticky a))
    ∧ (style ∘ Placeholder.element <$> _placeholder f1)
      = (style ∘ Placeholder.element <$> _placeholder f)
    ∧ (style ∘ Placeholder.element <$> _placeholder a1)
      = (style ∘ Placeholder.element <$> _placeholder a).
Proof.
  intros Hfirst [p Hp]. destruct t; simpl in Hp; subst.
  destruct Hfirst as [-> | [-> | ->]];
    unfold _makeStatic, _makeFixed, _makeAbsolute; simpl;
    eexists _, _, _, _, _; repeat (split; [reflexivity|]); simpl;
    (split; [map_cases k|]; split; [map_cases k|];
     split; f_equal; unfold compose; simpl; by rewrite insert_insert_eq).
Qed.

End History.

(** X14.  Modular variant.  The transitions to Fixed and to Absolute
    forget where the element comes from: applied right after any of the
    three transitions, each leaves on the sticky element, and on the
    placeholder, exactly the inline style it leaves when applied
    directly.  (The transition to Static does not share this: it keeps
    the offsets of the scheme it leaves.) *)
Theorem fixed_and_absolute_forget_history
    (first : PositionSticky.t → option PositionSticky.t)
    (t : PositionSticky.t) :
  first ∈ [PositionSticky._makeStatic; PositionSticky._makeFixed;
           PositionSticky._makeAbsolute] →
  is_Some (PositionSticky._placeholder t) →
  ∃ t1 f f1 a a1,
    first t = Some t1
    ∧ PositionSticky._makeFixed t = Some f
    ∧ PositionSticky._makeFixed t1 = Some f1
    ∧ PositionSticky._makeAbsolute t = Some a
    ∧ PositionSticky._makeAbsolute t1 = Some a1
    ∧ style (Sticky.element (PositionSticky._sticky f1))
      = style (Sticky.element (PositionSticky._sticky f))
    ∧ style (Sticky.element (PositionSticky._sticky a1))
      = style (Sticky.element (PositionSticky._sticky a))
    ∧ (style ∘ Placeholder.element <$> PositionSticky._placeholder f1)
      = (style ∘ Placeholder.element <$> PositionSticky._placeholder f)
    ∧ (style ∘ Placeholder.element <$> PositionSticky._placeholder a1)
      = (style ∘ Placeholder.element <$> PositionSticky._placeholder a).
Proof.
  intros Hin Hp. apply transition_forgets; [|exact Hp].
  repeat (apply elem_of_cons in Hin as [Hin|Hin]; [by auto|]).
  by apply elem_of_nil in Hin.
Qed.

Lemma fixed_and_absolute_forget_history_witness :
  is_Some (PositionSticky._placeholder sampleInstance)
  ∧ ∃ t1 f f1,
      PositionSticky._makeAbsolute sampleInstance = Some t1
      ∧ PositionSticky._makeFixed sampleInstance = Some f
      ∧ PositionSticky._makeFixed t1 = Some f1
      ∧ style (Sticky.element (PositionSticky._sticky f1))
        = style (Sticky.element (PositionSticky._sticky f)).
Proof.
  assert (Hp : is_Some (PositionSticky._placeholder sampleInstance))
    by (eexists; reflexivity).
  split; [exact Hp|].
  destruct (fixed_and_absolute_forget_history PositionSticky._makeAbsolute
              sampleInstance) as (t1 & f & f1 & a & a1 & H1 & Hf & Hf1 & _ & _
                                  & Hstyle & _).
  - apply elem_of_cons; right. apply elem_of_cons; right.
    apply elem_of_cons; left. reflexivity.
  - exact Hp.
  - exists t1, f, f1. repeat split; assumption.
Defined.
